(** * Desktop organizer: a shallow embedding of [desktop_organizer.py]

    The development follows the three tools of [DesktopOrganizer]:
    [show_status], [analyze_files] and [organize].

    - Python [str] values are [string]s (byte strings; [str.lower] is the
      ASCII lowering, which agrees with Python on every key of the extension
      table), insertion-ordered [dict]s are association lists.
    - The operating system, the clock and the chat-completion service are an
      interface ([OS]): the tools are written once against it, in a small
      state-and-exception monad, and proved for every implementation.
    - [Posix] implements the interface by a directory tree, for the
      properties that depend on what a move does to the file system. *)

From Stdlib Require Import List String Ascii Bool Arith ZArith Lia.
From Stdlib Require Import Permutation Sorted DecimalString.
Import ListNotations.
Open Scope string_scope.

(** ** Python strings *)

Module Py.

(** The line feed, written ["\n"] in the source. *)
Definition LF : string := String (ascii_of_nat 10) EmptyString.

(** [s.startswith(pre)] *)
Definition startswith (s pre : string) : bool := String.prefix pre s.

(** [str.lower] on one character. *)
Definition lower_ascii (c : ascii) : ascii :=
  let n := nat_of_ascii c in
  if ((65 <=? n) && (n <=? 90))%nat then ascii_of_nat (n + 32) else c.

(** [s.lower()] *)
Fixpoint lower (s : string) : string :=
  match s with
  | EmptyString => EmptyString
  | String c s' => String (lower_ascii c) (lower s')
  end.

(** [s.rfind(c)] for a one-character needle: the last index, or [-1]. *)
Fixpoint rfind_from (c : ascii) (s : string) (i last : Z) : Z :=
  match s with
  | EmptyString => last
  | String a s' => rfind_from c s' (i + 1) (if Ascii.eqb a c then i else last)
  end.

Definition rfind (c : ascii) (s : string) : Z := rfind_from c s 0 (-1).

(** The slices [s[:n]] and [s[n:]]. *)
Fixpoint slice_to (n : nat) (s : string) : string :=
  match n, s with
  | S n', String c s' => String c (slice_to n' s')
  | _, _ => EmptyString
  end.

Fixpoint slice_from (n : nat) (s : string) : string :=
  match n, s with
  | S n', String _ s' => slice_from n' s'
  | _, _ => s
  end.

(** [str(n)] for a length. *)
Definition str_of_nat (n : nat) : string :=
  NilEmpty.string_of_uint (Nat.to_uint n).

(** ["\n".join(lines)] *)
Definition join_lines (lines : list string) : string :=
  String.concat LF lines.

(** [sorted(l)] on strings: a stable insertion sort for the code-point
    order. *)
Fixpoint insert_sorted (x : string) (l : list string) : list string :=
  match l with
  | [] => [x]
  | y :: l' => if String.ltb x y then x :: y :: l' else y :: insert_sorted x l'
  end.

Definition sorted (l : list string) : list string :=
  fold_left (fun acc x => insert_sorted x acc) l [].

(** *** Insertion-ordered dictionaries *)

Definition dict (V : Type) := list (string * V).

(** [d.get(k)] *)
Fixpoint get {V} (d : dict V) (k : string) : option V :=
  match d with
  | [] => None
  | (k', v) :: d' => if String.eqb k' k then Some v else get d' k
  end.

(** [d.get(k, default)] *)
Definition get_default {V} (d : dict V) (k : string) (default : V) : V :=
  match get d k with Some v => v | None => default end.

(** [d.setdefault(k, []).append(x)]: the list under [k] grows in place, a
    new key goes last. *)
Fixpoint setdefault_append (k x : string) (d : dict (list string))
  : dict (list string) :=
  match d with
  | [] => [(k, [x])]
  | (k', v) :: d' =>
      if String.eqb k' k then (k', (v ++ [x])%list) :: d'
      else (k', v) :: setdefault_append k x d'
  end.

End Py.

(** ** [os.path] on POSIX *)

Module OsPath.

(** [posixpath.join(a, b)] *)
Definition endswith_sep (a : string) : bool :=
  match String.get (String.length a - 1) a with
  | Some c => Ascii.eqb c "/"
  | None => false
  end.

Definition join (a b : string) : string :=
  if Py.startswith b "/" then b
  else if (String.eqb a "") || endswith_sep a then a ++ b
  else a ++ "/" ++ b.

(** The loop of [genericpath._splitext] that skips leading dots:
    [fuel] is [dotIndex - filenameIndex]. *)
Fixpoint splitext_scan (p : string) (dotIndex filenameIndex fuel : nat)
  : string * string :=
  match fuel with
  | O => (p, "")
  | S fuel' =>
      if negb (String.eqb (String.substring filenameIndex 1 p) ".")
      then (Py.slice_to dotIndex p, Py.slice_from dotIndex p)
      else splitext_scan p dotIndex (S filenameIndex) fuel'
  end.

(** [os.path.splitext(p)] *)
Definition splitext (p : string) : string * string :=
  let sepIndex := Py.rfind "/" p in
  let dotIndex := Py.rfind "." p in
  if (dotIndex >? sepIndex)%Z
  then splitext_scan p (Z.to_nat dotIndex) (Z.to_nat (sepIndex + 1))
         (Z.to_nat (dotIndex - (sepIndex + 1)))
  else (p, "").

End OsPath.

(** ** The fallback categorisation of [analyze_files] *)

(** A category plan: category name to the file names assigned to it. *)
Definition plan := Py.dict (list string).

(** The literal extension table of the [except] branch. *)
Definition extension_table : Py.dict string :=
  [ (".jpg", "Images"); (".jpeg", "Images"); (".png", "Images"); (".gif", "Images");
    (".pdf", "Documents"); (".doc", "Documents"); (".docx", "Documents");
    (".txt", "Documents");
    (".mp4", "Videos"); (".mov", "Videos"); (".avi", "Videos");
    (".mp3", "Audio"); (".wav", "Audio"); (".m4a", "Audio");
    (".zip", "Archives"); (".rar", "Archives"); (".7z", "Archives");
    (".py", "Code"); (".js", "Code"); (".html", "Code"); (".css", "Code") ].

(** The category of one file: lines 113-123. *)
Definition fallback_category (file : string) : string :=
  let ext := Py.lower (snd (OsPath.splitext file)) in
  let ext := if String.eqb ext "" then "No Extension" else ext in
  Py.get_default extension_table ext "Other".

(** The [for] loop of the [except] branch: lines 111-126. *)
Definition fallback_categorize (files : list string) : plan :=
  fold_left
    (fun extensions file =>
       Py.setdefault_append (fallback_category file) file extensions)
    files [].

(** ** The operating system, as the tools see it *)

(** A raised exception: its class and [str(e)]. *)
Record exception := Exception { exc_class : string; exc_str : string }.

(** What a tool hands back: a text, or [truffle.ReportError(e)], the
    framework's rendering of an exception, which is kept symbolic. *)
Inductive reply :=
| Text (s : string)
| ReportError (e : exception).

(** The calls the tools make on the outside world [W]. The queries read the
    world; [os_makedirs] (called with [exist_ok=True]) and [shutil_move]
    change it, also when they raise. [now_strftime] is
    [datetime.now().strftime("%Y%m%d_%H%M%S")]; [chat_completion] is the
    request of [analyze_files] with its reply parsed by [json.loads], at the
    declared type [Dict[str, List[str]]], or the exception either raised. *)
Class OS (W : Type) := {
  os_path_exists : string -> W -> bool;
  os_path_isfile : string -> W -> bool;
  os_path_isdir : string -> W -> bool;
  os_listdir : string -> W -> exception + list string;
  os_makedirs : string -> W -> (exception + unit) * W;
  shutil_move : string -> string -> W -> (exception + unit) * W;
  now_strftime : W -> string;
  chat_completion : list string -> W -> exception + plan
}.

(** *** Computations that change the world and may raise *)

Definition M (W A : Type) : Type := W -> (exception + A) * W.

Definition ret {W A} (a : A) : M W A := fun w => (inr a, w).

Definition bind {W A B} (m : M W A) (k : A -> M W B) : M W B :=
  fun w =>
    match m w with
    | (inr a, w') => k a w'
    | (inl e, w') => (inl e, w')
    end.

(** A query: the world is read, not changed. *)
Definition read {W A} (f : W -> A) : M W A := fun w => (inr (f w), w).

(** A query that may raise. *)
Definition read_or_raise {W A} (f : W -> exception + A) : M W A :=
  fun w => (f w, w).

(** [try: m  except Exception as e: ...]: the outcome of [m] as a value. *)
Definition try {W A} (m : M W A) : M W (exception + A) :=
  fun w => let (r, w') := m w in (inr r, w').

(** The outermost [try] of a tool: [except Exception as e: return
    truffle.ReportError(e)]. *)
Definition report {W} (m : M W string) : W -> reply * W :=
  fun w =>
    match m w with
    | (inr s, w') => (Text s, w')
    | (inl e, w') => (ReportError e, w')
    end.

(** [for x in l: s = body x s] *)
Fixpoint for_each {W A S} (l : list A) (body : A -> S -> M W S) (s : S)
  : M W S :=
  match l with
  | [] => ret s
  | x :: l' => bind (body x s) (for_each l' body)
  end.

Declare Scope monad_scope.
Delimit Scope monad_scope with monad.
Notation "x <- m ;; k" := (bind m (fun x => k))
  (at level 61, m at next level, right associativity) : monad_scope.
Notation "' pat <- m ;; k" := (bind m (fun x => match x with pat => k end))
  (at level 61, pat pattern, m at next level, right associativity)
  : monad_scope.

(** ** The tools *)

(** [self]: the desktop path computed by [__init__]. *)
Record DesktopOrganizer := { desktop_path : string }.

Section Tools.

Context {W : Type} `{OS W}.
Variable self : DesktopOrganizer.

Local Open Scope monad_scope.

(** *** [show_status] *)

(** Lines 46-53: the body of the loop, on the accumulators
    [(files, folders)]. *)
Definition show_status_step (include_hidden : bool) (w : W)
  (acc : list string * list string) (item : string)
  : list string * list string :=
  let '(files, folders) := acc in
  if negb include_hidden && Py.startswith item "." then (files, folders)
  else
    let item_path := OsPath.join (desktop_path self) item in
    if os_path_isdir item_path w then (files, List.app folders [item])
    else (List.app files [item], folders).

(** Lines 42-53. *)
Definition show_status_scan (include_hidden : bool) (items : list string)
  (w : W) : list string * list string :=
  fold_left (show_status_step include_hidden w) items ([], []).

(** Lines 55-66: the [status] list. *)
Definition status_lines (files folders : list string) : list string :=
  let status :=
    ["Desktop Status:";
     Py.LF ++ "Total Items: "
       ++ Py.str_of_nat (List.length files + List.length folders)] in
  let status :=
    match folders with
    | [] => status
    | _ => List.app status
             ((Py.LF ++ "Folders:")
              :: map (fun folder => "  - " ++ folder) (Py.sorted folders))
    end in
  match files with
  | [] => status
  | _ => List.app status
           ((Py.LF ++ "Files:")
            :: map (fun file => "  - " ++ file) (Py.sorted files))
  end.

(** The body of the [try]: lines 39-68. *)
Definition show_status_try (include_hidden : bool) : M W string :=
  found <- read (os_path_exists (desktop_path self)) ;;
  if negb found then ret "Desktop path not found!"
  else
    items <- read_or_raise (os_listdir (desktop_path self)) ;;
    '(files, folders) <- read (show_status_scan include_hidden items) ;;
    ret (Py.join_lines (status_lines files folders)).

Definition show_status (include_hidden : bool) : W -> reply * W :=
  report (show_status_try include_hidden).

(** *** [analyze_files] *)

(** Lines 81-126: the empty list, the service's answer, or the fallback
    when anything in the [try] raised. It never raises itself. *)
Definition analyze_files (files : list string) : M W plan :=
  match files with
  | [] => ret []
  | _ =>
      r <- try (read_or_raise (chat_completion files)) ;;
      match r with
      | inr categories => ret categories
      | inl _ => ret (fallback_categorize files)
      end
  end.

(** *** [organize] *)

(** Lines 142-144: the top-level, non-hidden regular files. *)
Definition list_files (items : list string) (w : W) : list string :=
  filter
    (fun f =>
       negb (Py.startswith f ".")
       && os_path_isfile (OsPath.join (desktop_path self) f) w)
    items.

(** Lines 154-158: the [summary] list of the dry run. *)
Definition preview_lines (categories : plan) : list string :=
  "Preview of organization plan:"
  :: flat_map
       (fun '(category, files) =>
          (Py.LF ++ category ++ ":") :: map (fun file => "  - " ++ file) files)
       categories.

(** Lines 176-182: where the file goes, renamed with a timestamp when the
    name is taken. *)
Definition destination (category file : string) (w : W) : string :=
  let folder_path := OsPath.join (desktop_path self) category in
  let dest_path := OsPath.join folder_path file in
  if os_path_exists dest_path w then
    let '(base, ext) := OsPath.splitext file in
    let timestamp := now_strftime w in
    let new_name := base ++ "_" ++ timestamp ++ ext in
    OsPath.join folder_path new_name
  else dest_path.

(** Lines 167-188: the body of the inner loop for one file of one
    category, on [(moved_files, skipped_files)]. *)
Definition move_file (category file : string)
  (st : plan * list string) : M W (plan * list string) :=
  let '(moved_files, skipped_files) := st in
  let src_path := OsPath.join (desktop_path self) file in
  src_found <- read (os_path_exists src_path) ;;
  if negb src_found
  then ret (moved_files, List.app skipped_files [file ++ " (not found)"])
  else
    let folder_path := OsPath.join (desktop_path self) category in
    _ <- os_makedirs folder_path ;;
    dest_path <- read (destination category file) ;;
    r <- try (shutil_move src_path dest_path) ;;
    match r with
    | inr _ => ret (Py.setdefault_append category file moved_files, skipped_files)
    | inl e =>
        ret (moved_files,
             List.app skipped_files [file ++ " (" ++ exc_str e ++ ")"])
    end.

(** Lines 165-166: the two nested loops. *)
Definition move_category (entry : string * list string)
  (st : plan * list string) : M W (plan * list string) :=
  let '(category, category_files) := entry in
  for_each category_files (move_file category) st.

Definition move_all (categories : plan) : M W (plan * list string) :=
  for_each categories move_category ([], []).

(** Lines 191-200: the [summary] list after the moves. *)
Definition summary_lines (moved_files : plan) (skipped_files : list string)
  : list string :=
  List.app
    ("Organization Complete!"
     :: flat_map
          (fun '(category, files) =>
             (Py.LF ++ category ++ " (" ++ Py.str_of_nat (List.length files)
                ++ " files):")
             :: map (fun file => "  - " ++ file) (Py.sorted files))
          moved_files)
    match skipped_files with
    | [] => []
    | _ => (Py.LF ++ "Skipped files:")
           :: map (fun file => "  - " ++ file) (Py.sorted skipped_files)
    end.

(** The body of the [try]: lines 141-202. *)
Definition organize_try (dry_run : bool) : M W string :=
  items <- read_or_raise (os_listdir (desktop_path self)) ;;
  files <- read (list_files items) ;;
  match files with
  | [] => ret "No files to organize on the desktop."
  | _ =>
      categories <- analyze_files files ;;
      if dry_run then ret (Py.join_lines (preview_lines categories))
      else
        '(moved_files, skipped_files) <- move_all categories ;;
        ret (Py.join_lines (summary_lines moved_files skipped_files))
  end.

Definition organize (dry_run : bool) : W -> reply * W :=
  report (organize_try dry_run).

End Tools.

(** ** The command-line interface *)

(** What was written to standard output: the values [print] was called
    with, and the prompts of [input]. *)
Inductive output :=
| Printed (r : reply)
| Prompted (prompt : string).

(** The console: the lines still to be read, and the output so far. *)
Record console := { stdin : list string; stdout : list output }.

Section Main.

Context {W : Type} `{OS W}.

Local Open Scope monad_scope.

(** [print(x)] *)
Definition print (x : reply) : M (W * console) unit :=
  fun '(w, c) =>
    (inr tt,
     (w, {| stdin := stdin c; stdout := List.app (stdout c) [Printed x] |})).

(** [input(prompt)]: the prompt is written, a line is read; [EOFError]
    when there is none. *)
Definition input (prompt : string) : M (W * console) string :=
  fun '(w, c) =>
    let out := List.app (stdout c) [Prompted prompt] in
    match stdin c with
    | [] =>
        (inl (Exception "EOFError" "EOF when reading a line"),
         (w, {| stdin := []; stdout := out |}))
    | line :: rest => (inr line, (w, {| stdin := rest; stdout := out |}))
    end.

(** A call of a tool: it sees the world, not the console. *)
Definition call (tool : W -> reply * W) : M (W * console) reply :=
  fun '(w, c) => let (r, w') := tool w in (inr r, (w', c)).

(** ["-" * 50] *)
Definition rule : string :=
  string_of_list_ascii (List.repeat "-"%char 50).

(** The body of the [try] of [main]: lines 209-233. [organizer] is what
    [DesktopOrganizer()] gave: the object, or the exception it raised. *)
Definition main_try (organizer : exception + DesktopOrganizer)
  : M (W * console) unit :=
  organizer <- read_or_raise (fun _ => organizer) ;;
  _ <- print (Text (Py.LF ++ "Current Desktop Status:")) ;;
  _ <- print (Text rule) ;;
  status <- call (show_status organizer false) ;;
  _ <- print status ;;
  response <- input (Py.LF ++ "Would you like to organize your desktop? (y/n): ") ;;
  if String.eqb (Py.lower response) "y" then
    _ <- print (Text (Py.LF ++ "Here's what I plan to do:")) ;;
    _ <- print (Text rule) ;;
    preview <- call (organize organizer true) ;;
    _ <- print preview ;;
    confirm <- input (Py.LF ++ "Proceed with organization? (y/n): ") ;;
    if String.eqb (Py.lower confirm) "y" then
      _ <- print (Text (Py.LF ++ "Organizing desktop...")) ;;
      _ <- print (Text rule) ;;
      summary <- call (organize organizer false) ;;
      print summary
    else print (Text (Py.LF ++ "Operation cancelled."))
  else print (Text (Py.LF ++ "Operation cancelled.")).

(** [main]: lines 206-236. An exception is printed, not raised. *)
Definition main (organizer : exception + DesktopOrganizer)
  (s : W * console) : W * console :=
  match main_try organizer s with
  | (inr _, s') => s'
  | (inl e, s') => snd (print (Text ("Error: " ++ exc_str e)) s')
  end.

End Main.

(** ** A POSIX file system

    One volume, no symbolic links, every operation permitted. A path is
    read as its components: empty ones and ["."] are dropped, [".."] is not
    interpreted (no entry bears that name). The order of a directory's
    entries is the order [os.listdir] reports. *)

Module Posix.

#[warnings="-register-all"]
Inductive node :=
| File (data : string)
| Dir (entries : list (string * node)).

Definition entries := list (string * node).

(** *** Paths *)

(** [p.split("/")] *)
Fixpoint segments (p : string) : list string :=
  match p with
  | EmptyString => [""]
  | String c p' =>
      if Ascii.eqb c "/" then "" :: segments p'
      else match segments p' with
           | [] => [String c ""]
           | s :: ss => String c s :: ss
           end
  end.

Definition is_component (s : string) : bool :=
  negb (String.eqb s "") && negb (String.eqb s ".").

Definition components (p : string) : list string :=
  filter is_component (segments p).

Fixpoint has_sep (s : string) : bool :=
  match s with
  | EmptyString => false
  | String c s' => Ascii.eqb c "/" || has_sep s'
  end.

(** A name that is one path component, as [os.listdir] reports them. *)
Definition valid_name (s : string) : bool :=
  negb (String.eqb s "") && negb (String.eqb s ".")
  && negb (String.eqb s "..") && negb (has_sep s).

Fixpoint is_prefix (p q : list string) : bool :=
  match p, q with
  | [], _ => true
  | x :: p', y :: q' => String.eqb x y && is_prefix p' q'
  | _ :: _, [] => false
  end.

Fixpoint same_path (p q : list string) : bool :=
  match p, q with
  | [], [] => true
  | x :: p', y :: q' => String.eqb x y && same_path p' q'
  | _, _ => false
  end.

(** *** The tree *)

Fixpoint find_entry (x : string) (es : entries) : option node :=
  match es with
  | [] => None
  | (y, n) :: es' => if String.eqb y x then Some n else find_entry x es'
  end.

Fixpoint lookup (p : list string) (n : node) : option node :=
  match p with
  | [] => Some n
  | x :: p' =>
      match n with
      | File _ => None
      | Dir es =>
          match find_entry x es with
          | Some child => lookup p' child
          | None => None
          end
      end
  end.

Definition remove_entry (x : string) (es : entries) : entries :=
  filter (fun e => negb (String.eqb (fst e) x)) es.

Fixpoint replace_entry (x : string) (n : node) (es : entries) : entries :=
  match es with
  | [] => []
  | (y, m) :: es' =>
      if String.eqb y x then (y, n) :: es' else (y, m) :: replace_entry x n es'
  end.

Definition put_entry (x : string) (n : node) (es : entries) : entries :=
  match find_entry x es with
  | Some _ => replace_entry x n es
  | None => List.app es [(x, n)]
  end.

(** The tree with the entries of the directory at [d] changed by [f]. *)
Fixpoint alter_dir (d : list string) (f : entries -> entries) (n : node)
  : option node :=
  match n with
  | File _ => None
  | Dir es =>
      match d with
      | [] => Some (Dir (f es))
      | x :: d' =>
          match find_entry x es with
          | Some child =>
              option_map (fun child' => Dir (replace_entry x child' es))
                (alter_dir d' f child)
          | None => None
          end
      end
  end.

(** The tree with the node at [p] replaced by [new] (the tree itself when
    [p] leads nowhere). *)
Fixpoint graft (p : list string) (new : node) (n : node) : node :=
  match p with
  | [] => new
  | x :: p' =>
      match n with
      | File _ => n
      | Dir es =>
          match find_entry x es with
          | Some child => Dir (replace_entry x (graft p' new child) es)
          | None => n
          end
      end
  end.

(** [os.makedirs(p, exist_ok=True)]: the missing directories along [p] are
    created; [None] when a component is a regular file. *)
Fixpoint mkdirs (p : list string) (n : node) : option node :=
  match n with
  | File _ => None
  | Dir es =>
      match p with
      | [] => Some n
      | x :: p' =>
          match find_entry x es with
          | Some child =>
              option_map (fun child' => Dir (replace_entry x child' es))
                (mkdirs p' child)
          | None =>
              option_map (fun child' => Dir (List.app es [(x, child')]))
                (mkdirs p' (Dir []))
          end
      end
  end.

Inductive errno := ENOENT | EINVAL | ENOTEMPTY | EISDIR | ENOTDIR | EEXIST.

Definition os_error (e : errno) (path : string) : exception :=
  match e with
  | ENOENT =>
      Exception "FileNotFoundError"
        ("[Errno 2] No such file or directory: '" ++ path ++ "'")
  | EINVAL => Exception "OSError" ("[Errno 22] Invalid argument: '" ++ path ++ "'")
  | ENOTEMPTY =>
      Exception "OSError" ("[Errno 39] Directory not empty: '" ++ path ++ "'")
  | EISDIR =>
      Exception "IsADirectoryError" ("[Errno 21] Is a directory: '" ++ path ++ "'")
  | ENOTDIR =>
      Exception "NotADirectoryError" ("[Errno 20] Not a directory: '" ++ path ++ "'")
  | EEXIST => Exception "FileExistsError" ("[Errno 17] File exists: '" ++ path ++ "'")
  end.

(** [os.rename(src, dst)] *)
Definition rename (src dst : list string) (r : node) : errno + node :=
  match lookup src r with
  | None => inl ENOENT
  | Some n =>
      if same_path src dst then inr r
      else if is_prefix src dst then inl EINVAL
      else
        match lookup (removelast dst) r with
        | Some (Dir _) =>
            match lookup dst r, n with
            | Some (Dir (_ :: _)), Dir _ => inl ENOTEMPTY
            | Some (Dir _), File _ => inl EISDIR
            | Some (File _), Dir _ => inl ENOTDIR
            | _, _ =>
                match alter_dir (removelast src) (remove_entry (last src "")) r with
                | None => inl ENOENT
                | Some r1 =>
                    match
                      alter_dir (removelast dst) (put_entry (last dst "") n) r1
                    with
                    | None => inl ENOENT
                    | Some r2 => inr r2
                    end
                end
            end
        | Some (File _) => inl ENOTDIR
        | None => inl ENOENT
        end
  end.

Inductive move_error :=
| SourceMissing
| DestinationExists
| IntoItself
| OsError (e : errno).

(** The [try: os.rename(src, real_dst)  except OSError: ...] of
    [shutil.move]: when the rename fails, the copy-and-delete fallback,
    which on one volume succeeds only for a directory whose new parent is
    missing. *)
Definition rename_or_copy (s d real_dst : list string) (r : node)
  : move_error + node :=
  match rename s real_dst r with
  | inr r' => inr r'
  | inl e =>
      match lookup s r with
      | Some (Dir _) =>
          if is_prefix s d then inl IntoItself
          else
            match lookup real_dst r with
            | Some _ => inl (OsError EEXIST)
            | None =>
                match mkdirs (removelast real_dst) r with
                | None => inl (OsError ENOTDIR)
                | Some r1 =>
                    match rename s real_dst r1 with
                    | inr r' => inr r'
                    | inl e' => inl (OsError e')
                    end
                end
            end
      | Some (File _) => inl (OsError e)
      | None => inl SourceMissing
      end
  end.

(** [shutil.move(src, dst)] on components: into [dst] when it is a
    directory (unless [src] is that directory), else onto [dst]. *)
Definition move_paths (s d : list string) (r : node) : move_error + node :=
  let into := match lookup d r with Some (Dir _) => true | _ => false end in
  if into && same_path s d
     && (match lookup s r with Some _ => true | None => false end)
  then inr r
  else
    let real_dst := if into then List.app d [last s ""] else d in
    match (if into then lookup real_dst r else None) with
    | Some _ => inl DestinationExists
    | None => rename_or_copy s d real_dst r
    end.

(** The exception [shutil.move] ends in. *)
Definition move_exception (src dst : string) (e : move_error) : exception :=
  match e with
  | SourceMissing => os_error ENOENT src
  | DestinationExists =>
      Exception "Error"
        ("Destination path '" ++ OsPath.join dst (last (components src) "")
           ++ "' already exists")
  | IntoItself =>
      Exception "Error"
        ("Cannot move a directory '" ++ src ++ "' into itself '" ++ dst ++ "'.")
  | OsError e => os_error e dst
  end.

Definition move (src dst : string) (r : node) : exception + node :=
  match move_paths (components src) (components dst) r with
  | inr r' => inr r'
  | inl e => inl (move_exception src dst e)
  end.

(** *** The clock *)

Record datetime := {
  year : nat; month : nat; day : nat;
  hour : nat; minute : nat; second : nat
}.

Definition digit (n : nat) : ascii := ascii_of_nat (48 + n mod 10).

Definition digits2 (n : nat) : string :=
  String (digit (n / 10)) (String (digit n) EmptyString).

Definition digits4 (n : nat) : string :=
  String (digit (n / 1000)) (String (digit (n / 100)) (digits2 n)).

(** [t.strftime("%Y%m%d_%H%M%S")] *)
Definition strftime (t : datetime) : string :=
  digits4 (year t) ++ digits2 (month t) ++ digits2 (day t) ++ "_"
  ++ digits2 (hour t) ++ digits2 (minute t) ++ digits2 (second t).

(** *** The world *)

(** The tree from ["/"], the number of changes made so far, the time at
    each of them, and what the chat-completion service answers. *)
Record world := {
  root : node;
  ticks : nat;
  clock : nat -> datetime;
  llm : list string -> exception + plan
}.

Definition tick (w : world) (r : node) : world :=
  {| root := r; ticks := S (ticks w); clock := clock w; llm := llm w |}.

Definition path_exists (p : string) (w : world) : bool :=
  match lookup (components p) (root w) with Some _ => true | None => false end.

Definition path_isfile (p : string) (w : world) : bool :=
  match lookup (components p) (root w) with Some (File _) => true | _ => false end.

Definition path_isdir (p : string) (w : world) : bool :=
  match lookup (components p) (root w) with Some (Dir _) => true | _ => false end.

Definition listdir (p : string) (w : world) : exception + list string :=
  match lookup (components p) (root w) with
  | Some (Dir es) => inr (map fst es)
  | Some (File _) => inl (os_error ENOTDIR p)
  | None => inl (os_error ENOENT p)
  end.

Definition makedirs (p : string) (w : world) : (exception + unit) * world :=
  match mkdirs (components p) (root w) with
  | Some r => (inr tt, tick w r)
  | None =>
      (inl (os_error
              (match lookup (components p) (root w) with
               | Some _ => EEXIST
               | None => ENOTDIR
               end) p),
       tick w (root w))
  end.

Definition shutil_move (src dst : string) (w : world)
  : (exception + unit) * world :=
  match move src dst (root w) with
  | inr r => (inr tt, tick w r)
  | inl e => (inl e, tick w (root w))
  end.

#[global] Instance posix : OS world := {
  os_path_exists := path_exists;
  os_path_isfile := path_isfile;
  os_path_isdir := path_isdir;
  os_listdir := listdir;
  os_makedirs := makedirs;
  shutil_move := shutil_move;
  now_strftime := fun w => strftime (clock w (ticks w));
  chat_completion := fun files w => llm w files
}.

End Posix.

(** ** Desktops to run the tools on *)

Module Scenario.

Definition me : DesktopOrganizer := {| desktop_path := "/Users/me/Desktop" |}.

(** 4 November 2026, 12:00:07. *)
Definition noon : Posix.datetime :=
  {| Posix.year := 2026; Posix.month := 11; Posix.day := 4;
     Posix.hour := 12; Posix.minute := 0; Posix.second := 7 |}.

(** The chat-completion service cannot be reached. *)
Definition offline (files : list string) : exception + plan :=
  inl (Exception "ConnectionError" "Connection refused").

(** The tree with [es] on the desktop. *)
Definition home (es : Posix.entries) : Posix.node :=
  Posix.Dir [("Users", Posix.Dir [("me", Posix.Dir [("Desktop", Posix.Dir es)])])].

Definition desktop (es : Posix.entries)
  (llm : list string -> exception + plan) : Posix.world :=
  {| Posix.root := home es; Posix.ticks := 0;
     Posix.clock := fun _ => noon; Posix.llm := llm |}.

(** The world after the folder of [category] is made, and after [file] is
    then moved. *)
Definition folder_made (category : string) (w : Posix.world) : Posix.world :=
  snd (os_makedirs (OsPath.join (desktop_path me) category) w).

Definition file_moved (category file : string) (w : Posix.world)
  : Posix.world :=
  snd (shutil_move (OsPath.join (desktop_path me) file)
         (destination me category file (folder_made category w))
         (folder_made category w)).

(** [report.txt] on the desktop, and another one in [Documents]. *)
Definition collision : Posix.world :=
  desktop
    [("report.txt", Posix.File "new");
     ("Documents", Posix.Dir [("report.txt", Posix.File "old")])]
    offline.


(** The service files the folder [X] under the category [X]. *)
Definition folder_into_itself : Posix.world :=
  desktop [("X", Posix.Dir []); ("a.txt", Posix.File "A")]
    (fun _ => inr [("X", ["X"; "a.txt"])]).

(** The service names a file that is not there. *)
Definition ghost_file : Posix.world :=
  desktop [("a.txt", Posix.File "A")]
    (fun _ => inr [("Docs", ["ghost.txt"; "a.txt"])]).

(** Two files and a hidden one. *)
Definition two_files : Posix.world :=
  desktop
    [("a.jpg", Posix.File "A"); ("b.txt", Posix.File "B");
     (".hidden", Posix.File "H")]
    offline.

(** The service files [a.txt] twice. *)
Definition filed_twice : Posix.world :=
  desktop [("a.txt", Posix.File "A"); ("b.txt", Posix.File "B")]
    (fun _ => inr [("Docs", ["a.txt"; "b.txt"]); ("Misc", ["a.txt"])]).

(** The service files [Notes] twice, and [todo.txt] under a category
    named [Notes]. *)
Definition category_named_as_file : Posix.world :=
  desktop [("Notes", Posix.File "N"); ("todo.txt", Posix.File "T")]
    (fun _ =>
       inr [("Misc", ["Notes"]); ("Notes", ["todo.txt"]); ("Other", ["Notes"])]).



(** The service files [Notes] twice, and [todo.txt] under a category
    below a folder named [Notes]. *)
Definition category_below_the_file : Posix.world :=
  desktop [("Notes", Posix.File "N"); ("todo.txt", Posix.File "T")]
    (fun _ =>
       inr [("Misc", ["Notes"]); ("Notes/Personal", ["todo.txt"]);
            ("Other", ["Notes"])]).

(** A hidden file and a folder, and no file to organize. *)
Definition nothing_to_organize : Posix.world :=
  desktop [(".hidden", Posix.File "H"); ("Folder", Posix.Dir [])] offline.

(** A console with these lines to read. *)
Definition typed (lines : list string) : console :=
  {| stdin := lines; stdout := [] |}.

End Scenario.

(** ** What the properties are stated with *)

(** The code-point order [sorted] sorts by. *)
Definition str_le (a b : string) : Prop := String.leb a b = true.

(** The lines of a listing section: nothing for an empty list, else the
    title and one line per name of the sorted list. *)
Definition listing_section (title : string) (names : list string)
  : list string :=
  match names with
  | [] => []
  | _ => (Py.LF ++ title) :: map (fun name => "  - " ++ name) (Py.sorted names)
  end.

(** Reading a preview back. A category line starts with a line feed and
    ends with a colon, a file line starts with ["  - "]. [scan_preview]
    gives the file lines before the first category line, and the plan read
    from there on. *)
Fixpoint drop_last (s : string) : string :=
  match s with
  | EmptyString => EmptyString
  | String c EmptyString => EmptyString
  | String c s' => String c (drop_last s')
  end.

Fixpoint scan_preview (lines : list string) : list string * plan :=
  match lines with
  | [] => ([], [])
  | line :: rest =>
      let '(pending, p) := scan_preview rest in
      match line with
      | EmptyString => (pending, p)
      | String c line' =>
          if Ascii.eqb c (ascii_of_nat 10)
          then ([], (drop_last line', pending) :: p)
          else (Py.slice_from 4 line :: pending, p)
      end
  end.

Definition plan_of_preview (lines : list string) : option plan :=
  match lines with
  | header :: rest =>
      if String.eqb header "Preview of organization plan:"
      then match scan_preview rest with
           | ([], p) => Some p
           | _ => None
           end
      else None
  | [] => None
  end.

(** [f] is recorded in some list of the mapping. *)
Definition recorded (moved_files : plan) (f : string) : Prop :=
  exists category files, In (category, files) moved_files /\ In f files.

(** The (category, file) pairs of a plan, in the order the nested loops
    visit them. *)
Definition plan_steps (categories : plan) : list (string * string) :=
  flat_map (fun '(category, files) => map (pair category) files) categories.

(** What a step of [organize] for a file of category [c] may do to the
    entries [es] of the desktop: the only new name is [c], no regular file
    appears, and no absent name other than [c] appears. *)
Definition desk_frame (c : string) (es es' : Posix.entries) : Prop :=
  (forall n, In n (map fst es') -> In n (map fst es) \/ n = c)
  /\ (forall n d,
        Posix.find_entry n es' = Some (Posix.File d) ->
        Posix.find_entry n es = Some (Posix.File d))
  /\ (forall n,
        n <> c -> Posix.find_entry n es = None -> Posix.find_entry n es' = None).

(** A timestamp [YYYYMMDD_HHMMSS]: eight digits, an underscore, six
    digits. *)
Definition is_digit (c : ascii) : bool :=
  let n := nat_of_ascii c in ((48 <=? n) && (n <=? 57))%nat.



(** *** The loops of [organize], in parts *)

Section Loops.

Context {W : Type} `{OS W}.
Variable self : DesktopOrganizer.

(** The loops of lines 165-166 up to, and not including, the file that
    follows [fs1] in the list of [category]; and the loops from the file
    after it on. *)
Definition loops_before (cats1 : plan) (category : string)
  (fs1 : list string) : M W (plan * list string) :=
  bind (for_each cats1 (move_category self) ([], []))
    (for_each fs1 (move_file self category)).

Definition loops_after (category : string) (fs2 : list string)
  (cats2 : plan) (st : plan * list string) : M W (plan * list string) :=
  bind (for_each fs2 (move_file self category) st)
    (for_each cats2 (move_category self)).

(** The two loops as one, over the (category, file) pairs. *)
Definition move_steps (steps : list (string * string))
  : plan * list string -> M W (plan * list string) :=
  for_each steps (fun step => move_file self (fst step) (snd step)).

End Loops.

(** Steps whose category and file are proper names. *)
Definition valid_steps (steps : list (string * string)) : Prop :=
  Forall
    (fun step =>
       Posix.valid_name (fst step) = true /\ Posix.valid_name (snd step) = true)
    steps.

(** The seven folders of the fallback. *)
Definition fallback_folders : list string :=
  ["Images"; "Documents"; "Videos"; "Audio"; "Archives"; "Code"; "Other"].

(** [f] is recorded under [category] in the mapping. *)
Definition filed (moved_files : plan) (category f : string) : Prop :=
  exists files, In (category, files) moved_files /\ In f files.

(** * Properties *)

(** ** Strings, sorting, dictionaries *)

Lemma slice_to_from (n : nat) (s : string) :
  Py.slice_to n s ++ Py.slice_from n s = s.
Proof.
  revert s; induction n as [|n IH]; intros s.
  - destruct s; reflexivity.
  - destruct s as [|c s]; [reflexivity|]. simpl. now rewrite IH.
Qed.

Lemma splitext_scan_concat (p : string) (dotIndex filenameIndex fuel : nat) :
  fst (OsPath.splitext_scan p dotIndex filenameIndex fuel)
  ++ snd (OsPath.splitext_scan p dotIndex filenameIndex fuel) = p.
Proof.
  revert filenameIndex; induction fuel as [|fuel IH]; intros i; simpl.
  - destruct p; simpl; [reflexivity|]. f_equal.
    clear. induction p; simpl; congruence.
  - destruct (negb _); simpl; [apply slice_to_from | apply IH].
Qed.

(** [splitext] cuts the name in two: [base + ext == file]. *)
Lemma splitext_concat (p : string) :
  fst (OsPath.splitext p) ++ snd (OsPath.splitext p) = p.
Proof.
  unfold OsPath.splitext. destruct (_ >? _)%Z.
  - apply splitext_scan_concat.
  - simpl. clear. induction p; simpl; congruence.
Qed.

Lemma ltb_false_leb (x y : string) :
  String.ltb x y = false -> String.leb y x = true.
Proof.
  unfold String.ltb, String.leb. rewrite (String.compare_antisym y x).
  destruct (String.compare x y); simpl; congruence.
Qed.

Lemma ltb_true_leb (x y : string) :
  String.ltb x y = true -> String.leb x y = true.
Proof.
  unfold String.ltb, String.leb. destruct (String.compare x y); congruence.
Qed.

Lemma insert_sorted_perm (x : string) (l : list string) :
  Permutation (Py.insert_sorted x l) (x :: l).
Proof.
  induction l as [|y l IH]; simpl; [apply Permutation_refl|].
  destruct (String.ltb x y); [apply Permutation_refl|].
  eapply perm_trans; [apply perm_skip, IH | apply perm_swap].
Qed.

Lemma insert_sorted_hd (x y : string) (l : list string) :
  str_le y x -> HdRel str_le y l -> HdRel str_le y (Py.insert_sorted x l).
Proof.
  intros Hyx Hl. destruct l as [|z l]; simpl.
  - now constructor.
  - destruct (String.ltb x z); constructor; [assumption|].
    now inversion Hl.
Qed.

Lemma insert_sorted_Sorted (x : string) (l : list string) :
  Sorted str_le l -> Sorted str_le (Py.insert_sorted x l).
Proof.
  induction 1 as [|y l Hs IH Hhd]; simpl.
  - repeat constructor.
  - destruct (String.ltb x y) eqn:E.
    + constructor; [now constructor|]. constructor. now apply ltb_true_leb.
    + constructor; [assumption|].
      apply insert_sorted_hd; [now apply ltb_false_leb | assumption].
Qed.

Lemma sorted_fold_perm (l acc : list string) :
  Permutation (fold_left (fun acc x => Py.insert_sorted x acc) l acc)
    (List.app acc l).
Proof.
  revert acc; induction l as [|x l IH]; intros acc; simpl.
  - rewrite app_nil_r. apply Permutation_refl.
  - eapply perm_trans; [apply IH|].
    eapply perm_trans;
      [apply Permutation_app_tail, insert_sorted_perm|].
    simpl. apply Permutation_middle.
Qed.

Lemma sorted_fold_Sorted (l acc : list string) :
  Sorted str_le acc ->
  Sorted str_le (fold_left (fun acc x => Py.insert_sorted x acc) l acc).
Proof.
  revert acc; induction l as [|x l IH]; intros acc Hacc; simpl;
    [assumption|]. apply IH. now apply insert_sorted_Sorted.
Qed.

(** [sorted] returns its argument, reordered and in order. *)
Lemma sorted_perm (l : list string) : Permutation (Py.sorted l) l.
Proof. apply (sorted_fold_perm l []). Qed.

Lemma sorted_Sorted (l : list string) : Sorted str_le (Py.sorted l).
Proof. apply sorted_fold_Sorted. constructor. Qed.

Lemma get_default_cases {V} (d : Py.dict V) (k : string) (default : V) :
  Py.get_default d k default = default
  \/ In (Py.get_default d k default) (map snd d).
Proof.
  unfold Py.get_default. induction d as [|[k' v] d IH]; simpl; [now left|].
  destruct (String.eqb k' k); [right; now left|].
  destruct IH as [IH|IH]; [now left | right; now right].
Qed.

(** ** The fallback categorisation *)

(** C3, at its own example: with the chat completion failing, the files
    [a.jpg], [b.txt] and [notes] are categorised under "Images",
    "Documents" and "Other". The name "No Extension" that line 115 puts
    in [ext] is only looked up in the table, so that no file at all is
    filed under "No Extension". *)
Theorem fallback_never_files_under_no_extension :
  fallback_categorize ["a.jpg"; "b.txt"; "notes"]
  = [("Images", ["a.jpg"]); ("Documents", ["b.txt"]); ("Other", ["notes"])]
  /\ fallback_category "notes" = "Other"
  /\ forall file, fallback_category file <> "No Extension".
Proof.
  split; [reflexivity|]. split; [reflexivity|].
  intros file. unfold fallback_category.
  match goal with
  | |- Py.get_default ?d ?k ?dflt <> _ =>
      destruct (get_default_cases d k dflt) as [E|E]
  end.
  - rewrite E. discriminate.
  - simpl in E.
    repeat (destruct E as [E|E]; [rewrite <- E; discriminate|]).
    destruct E.
Qed.

(** ** The tools, over any operating system *)

Section ToolProperties.

Context {W : Type} `{OS W}.
Variable self : DesktopOrganizer.

(** [analyze_files] reads the world and never raises. *)
Lemma analyze_files_total (files : list string) (w : W) :
  exists categories, analyze_files files w = (inr categories, w).
Proof.
  destruct files as [|f files]; simpl.
  - eexists; reflexivity.
  - unfold bind, try, read_or_raise.
    destruct (chat_completion (f :: files) w); eexists; reflexivity.
Qed.

(** *** [show_status] *)

Lemma show_status_scan_partition (include_hidden : bool)
  (items files folders : list string) (w : W) :
  let shown :=
    filter (fun item => include_hidden || negb (Py.startswith item ".")) items in
  let isdir item := os_path_isdir (OsPath.join (desktop_path self) item) w in
  fold_left (show_status_step self include_hidden w) items (files, folders)
  = (List.app files (filter (fun item => negb (isdir item)) shown),
     List.app folders (filter isdir shown)).
Proof.
  cbv zeta. revert files folders.
  induction items as [|item items IH]; intros files folders.
  - simpl. now rewrite !app_nil_r.
  - cbn [fold_left filter]. unfold show_status_step at 2.
    replace (include_hidden || negb (Py.startswith item "."))
      with (negb (negb include_hidden && Py.startswith item "."))
      by (destruct include_hidden, (Py.startswith item "."); reflexivity).
    destruct (negb include_hidden && Py.startswith item "."); cbn [negb].
    + apply IH.
    + cbn [filter].
      destruct (os_path_isdir (OsPath.join (desktop_path self) item) w);
        cbn [negb]; rewrite IH; now rewrite <- app_assoc.
Qed.

Lemma filter_partition_length {A} (p : A -> bool) (l : list A) :
  List.length (filter (fun x => negb (p x)) l) + List.length (filter p l)
  = List.length l.
Proof.
  induction l as [|x l IH]; simpl; [reflexivity|].
  destruct (p x); simpl; lia.
Qed.

(** C9: [show_status] changes nothing, and when the desktop can be listed
    its text is made of the count of the entries shown (all of them, or
    those whose name does not start with a dot), then the folders among
    them in code-point order, then the other entries in code-point
    order. *)
Theorem show_status_lists_folders_then_files (include_hidden : bool) (w : W) :
  snd (show_status self include_hidden w) = w
  /\ forall items,
      os_path_exists (desktop_path self) w = true ->
      os_listdir (desktop_path self) w = inr items ->
      let shown :=
        filter (fun item => include_hidden || negb (Py.startswith item "."))
          items in
      let isdir item := os_path_isdir (OsPath.join (desktop_path self) item) w in
      let folders := filter isdir shown in
      let files := filter (fun item => negb (isdir item)) shown in
      fst (show_status self include_hidden w)
      = Text
          (Py.join_lines
             ("Desktop Status:"
              :: (Py.LF ++ "Total Items: " ++ Py.str_of_nat (List.length shown))
              :: List.app (listing_section "Folders:" folders)
                   (listing_section "Files:" files)))
      /\ Sorted str_le (Py.sorted folders)
      /\ Permutation (Py.sorted folders) folders
      /\ Sorted str_le (Py.sorted files)
      /\ Permutation (Py.sorted files) files.
Proof.
  split.
  - unfold show_status, report, show_status_try, bind, read, read_or_raise, ret.
    destruct (os_path_exists _ w); simpl; [|reflexivity].
    destruct (os_listdir _ w); simpl; [reflexivity|].
    destruct (show_status_scan _ _ _ _); reflexivity.
  - intros items Hfound Hlist shown isdir folders files.
    split; [|auto using sorted_Sorted, sorted_perm].
    unfold show_status, report, show_status_try, bind, read, read_or_raise, ret.
    cbv beta iota. rewrite Hfound. cbv beta iota. cbn [negb].
    rewrite Hlist. cbv beta iota.
    unfold show_status_scan.
    rewrite (show_status_scan_partition include_hidden items [] [] w).
    cbn [List.app fst snd]. unfold status_lines, listing_section.
    subst files folders isdir. cbv beta.
    rewrite <- (filter_partition_length
                  (fun item => os_path_isdir (OsPath.join (desktop_path self) item) w)
                  shown).
    subst shown.
    set (fs := filter (fun item => negb _) (filter _ items)).
    set (ds := filter _ (filter _ items)).
    destruct ds, fs; cbn [List.app]; rewrite ?app_nil_r; reflexivity.
Qed.

End ToolProperties.
(** ** [organize], over any operating system *)

Lemma drop_last_colon (s : string) : drop_last (s ++ ":") = s.
Proof.
  induction s as [|c s IH]; [reflexivity|].
  simpl. rewrite IH. destruct s; reflexivity.
Qed.

Lemma scan_preview_files (files rest : list string) :
  scan_preview (List.app (map (fun file => "  - " ++ file) files) rest)
  = (List.app files (fst (scan_preview rest)), snd (scan_preview rest)).
Proof.
  induction files as [|f files IH]; simpl.
  - now destruct (scan_preview rest).
  - simpl in IH. rewrite IH. reflexivity.
Qed.

(** A preview is read back as the plan it was made from. *)
Lemma plan_of_preview_lines (categories : plan) :
  scan_preview
    (flat_map
       (fun '(category, files) =>
          (Py.LF ++ category ++ ":") :: map (fun file => "  - " ++ file) files)
       categories)
  = ([], categories).
Proof.
  induction categories as [|[c fs] p IH]; [reflexivity|].
  cbn [flat_map]. rewrite <- app_comm_cons.
  cbn [scan_preview]. rewrite scan_preview_files, IH.
  cbn [fst snd Py.LF append]. rewrite app_nil_r.
  now rewrite Ascii.eqb_refl, drop_last_colon.
Qed.

Lemma in_sorted (x : string) (l : list string) : In x l -> In x (Py.sorted l).
Proof.
  intros Hx. eapply Permutation_in; [|exact Hx].
  apply Permutation_sym, sorted_perm.
Qed.

Lemma get_setdefault_append (k x : string) (d : plan) :
  Py.get (Py.setdefault_append k x d) k
  = Some (List.app (Py.get_default d k []) [x]).
Proof.
  unfold Py.get_default.
  induction d as [|[k' v] d IH]; simpl.
  - now rewrite String.eqb_refl.
  - destruct (String.eqb k' k) eqn:E; simpl; rewrite E; [reflexivity|apply IH].
Qed.

Lemma get_in {V} (d : Py.dict V) (k : string) (v : V) :
  Py.get d k = Some v -> In (k, v) d.
Proof.
  induction d as [|[k' v'] d IH]; simpl; [discriminate|].
  destruct (String.eqb_spec k' k) as [->|]; intros E.
  - injection E as ->. now left.
  - right. now apply IH.
Qed.

Section OrganizeProperties.

Context {W : Type} `{OS W}.
Variable self : DesktopOrganizer.

Lemma bind_assoc {A B C} (m : M W A) (k : A -> M W B) (k' : B -> M W C)
  (w : W) :
  bind (bind m k) k' w = bind m (fun a => bind (k a) k') w.
Proof. unfold bind. destruct (m w) as [[e|a] w']; reflexivity. Qed.

Lemma bind_ext {A B} (m : M W A) (k k' : A -> M W B) (w : W) :
  (forall a w', k a w' = k' a w') -> bind m k w = bind m k' w.
Proof.
  intros E. unfold bind. destruct (m w) as [[e|a] w']; [reflexivity|apply E].
Qed.

Lemma bind_ext_l {A B} (m m' : M W A) (k : A -> M W B) (w : W) :
  (forall w', m w' = m' w') -> bind m k w = bind m' k w.
Proof. intros E. unfold bind. now rewrite E. Qed.

Lemma bind_value {A B} (m : M W A) (k : A -> M W B) (w w' : W) (a : A) :
  m w = (inr a, w') -> bind m k w = k a w'.
Proof. intros E. unfold bind. now rewrite E. Qed.

Lemma for_each_app {A S} (l1 l2 : list A) (body : A -> S -> M W S) (s : S)
  (w : W) :
  for_each (List.app l1 l2) body s w
  = bind (for_each l1 body s) (for_each l2 body) w.
Proof.
  revert s w; induction l1 as [|x l1 IH]; intros s w.
  - reflexivity.
  - cbn [List.app for_each]. rewrite bind_assoc.
    apply bind_ext. intros; apply IH.
Qed.

(** The loops, cut at one file of one category. *)
Lemma move_all_split (cats1 cats2 : plan) (category file : string)
  (fs1 fs2 : list string) (w : W) :
  move_all self
    (List.app cats1 ((category, List.app fs1 (file :: fs2)) :: cats2)) w
  = bind (loops_before self cats1 category fs1)
      (fun st =>
         bind (move_file self category file st)
           (loops_after self category fs2 cats2)) w.
Proof.
  unfold move_all, loops_before, loops_after.
  rewrite for_each_app, bind_assoc.
  apply bind_ext. intros st w'.
  cbn [for_each]. unfold move_category at 1.
  etransitivity; [apply bind_ext_l; intros; apply for_each_app|].
  rewrite bind_assoc. apply bind_ext. intros st1 w1.
  cbn [for_each]. apply bind_assoc.
Qed.

(** *** One file *)

Lemma move_file_not_found (category file : string) (moved_files : plan)
  (skipped_files : list string) (w : W) :
  os_path_exists (OsPath.join (desktop_path self) file) w = false ->
  move_file self category file (moved_files, skipped_files) w
  = (inr (moved_files, List.app skipped_files [file ++ " (not found)"]), w).
Proof.
  intros E. unfold move_file, bind, read, ret. now rewrite E.
Qed.

Lemma move_file_makedirs_raises (category file : string) (st : plan * list string)
  (w w1 : W) (e : exception) :
  os_path_exists (OsPath.join (desktop_path self) file) w = true ->
  os_makedirs (OsPath.join (desktop_path self) category) w = (inl e, w1) ->
  move_file self category file st w = (inl e, w1).
Proof.
  intros E1 E2. destruct st. unfold move_file, bind, read, ret.
  rewrite E1. cbn [negb]. now rewrite E2.
Qed.

Lemma move_file_moved (category file : string) (moved_files : plan)
  (skipped_files : list string) (w w1 w2 : W) :
  os_path_exists (OsPath.join (desktop_path self) file) w = true ->
  os_makedirs (OsPath.join (desktop_path self) category) w = (inr tt, w1) ->
  shutil_move (OsPath.join (desktop_path self) file)
    (destination self category file w1) w1 = (inr tt, w2) ->
  move_file self category file (moved_files, skipped_files) w
  = (inr (Py.setdefault_append category file moved_files, skipped_files), w2).
Proof.
  intros E1 E2 E3. unfold move_file, bind, read, ret, try.
  rewrite E1. cbn [negb]. rewrite E2. now rewrite E3.
Qed.

Lemma move_file_move_raises (category file : string) (moved_files : plan)
  (skipped_files : list string) (w w1 w2 : W) (e : exception) :
  os_path_exists (OsPath.join (desktop_path self) file) w = true ->
  os_makedirs (OsPath.join (desktop_path self) category) w = (inr tt, w1) ->
  shutil_move (OsPath.join (desktop_path self) file)
    (destination self category file w1) w1 = (inl e, w2) ->
  move_file self category file (moved_files, skipped_files) w
  = (inr (moved_files,
          List.app skipped_files [file ++ " (" ++ exc_str e ++ ")"]), w2).
Proof.
  intros E1 E2 E3. unfold move_file, bind, read, ret, try.
  rewrite E1. cbn [negb]. rewrite E2. now rewrite E3.
Qed.

(** *** C1, as amended *)

(** C1, amended: a file that is moved is recorded, under its category,
    by its source name [file], also when the name was taken at the
    destination and the file went to the timestamped name; that source
    name is the one the summary lists. *)
Theorem moved_file_is_recorded_by_source_name (category file : string)
  (moved_files : plan) (skipped_files : list string) (w w1 w2 : W) :
  os_path_exists (OsPath.join (desktop_path self) file) w = true ->
  os_makedirs (OsPath.join (desktop_path self) category) w = (inr tt, w1) ->
  shutil_move (OsPath.join (desktop_path self) file)
    (destination self category file w1) w1 = (inr tt, w2) ->
  let folder_path := OsPath.join (desktop_path self) category in
  let moved_files' := Py.setdefault_append category file moved_files in
  move_file self category file (moved_files, skipped_files) w
  = (inr (moved_files', skipped_files), w2)
  /\ Py.get moved_files' category
     = Some (List.app (Py.get_default moved_files category []) [file])
  /\ In ("  - " ++ file) (summary_lines moved_files' skipped_files)
  /\ (os_path_exists (OsPath.join folder_path file) w1 = true ->
      destination self category file w1
      = OsPath.join folder_path
          (fst (OsPath.splitext file) ++ "_" ++ now_strftime w1
             ++ snd (OsPath.splitext file))).
Proof.
  intros E1 E2 E3 folder_path moved_files'.
  split; [now apply move_file_moved with (w1 := w1)|].
  split; [apply get_setdefault_append|]. split.
  - unfold summary_lines. apply in_or_app. left. right.
    apply in_flat_map.
    exists (category, List.app (Py.get_default moved_files category []) [file]).
    split; [apply get_in, get_setdefault_append|].
    right. apply in_map, in_sorted, in_or_app. right. now left.
  - intros E4. unfold destination. fold folder_path. rewrite E4.
    now destruct (OsPath.splitext file).
Qed.

(** *** C4 *)

(** C4: a dry run leaves the world as it is. When the desktop can be
    listed and has a file to organize, the reply is the preview of the
    plan [analyze_files] gave for those files: after the title, for each
    category in turn, its line and one line for each of its files, so that
    reading the lines back gives that plan. *)
Theorem organize_dry_run_previews_the_plan (w : W) :
  snd (organize self true w) = w
  /\ forall items,
      os_listdir (desktop_path self) w = inr items ->
      list_files self items w <> [] ->
      exists categories,
        analyze_files (list_files self items w) w = (inr categories, w)
        /\ fst (organize self true w)
           = Text (Py.join_lines (preview_lines categories))
        /\ plan_of_preview (preview_lines categories) = Some categories.
Proof.
  split.
  - unfold organize, report, organize_try, bind, read_or_raise, read, ret.
    destruct (os_listdir _ w) as [e|items]; [reflexivity|].
    destruct (list_files self items w) as [|f files]; [reflexivity|].
    destruct (analyze_files_total (f :: files) w) as [categories Ea].
    now rewrite Ea.
  - intros items El Hfiles.
    destruct (analyze_files_total (list_files self items w) w)
      as [categories Ea].
    exists categories. split; [exact Ea|]. split.
    + unfold organize, report, organize_try, bind, read_or_raise, read, ret.
      rewrite El.
      destruct (list_files self items w) as [|f files]; [contradiction|].
      now rewrite Ea.
    + unfold plan_of_preview, preview_lines.
      rewrite String.eqb_refl, plan_of_preview_lines. reflexivity.
Qed.

(** *** C6 and C7 *)

(** C6: when [shutil.move] raises for a file of the plan, [move_file]
    does not raise: the file goes to the skipped list with [str(e)], the
    moved mapping is as it was, and the loops go on from there with the
    remaining files of the category and the remaining categories. *)
Theorem move_error_is_skipped_and_loop_continues (cats1 cats2 : plan)
  (category file : string) (fs1 fs2 : list string)
  (moved_files : plan) (skipped_files : list string) (w0 w1 w2 w3 : W)
  (e : exception) :
  loops_before self cats1 category fs1 w0
  = (inr (moved_files, skipped_files), w1) ->
  os_path_exists (OsPath.join (desktop_path self) file) w1 = true ->
  os_makedirs (OsPath.join (desktop_path self) category) w1 = (inr tt, w2) ->
  shutil_move (OsPath.join (desktop_path self) file)
    (destination self category file w2) w2 = (inl e, w3) ->
  let skipped_files' :=
    List.app skipped_files [file ++ " (" ++ exc_str e ++ ")"] in
  move_file self category file (moved_files, skipped_files) w1
  = (inr (moved_files, skipped_files'), w3)
  /\ move_all self
       (List.app cats1 ((category, List.app fs1 (file :: fs2)) :: cats2)) w0
     = loops_after self category fs2 cats2 (moved_files, skipped_files') w3.
Proof.
  intros E0 E1 E2 E3 skipped_files'.
  assert (Es : move_file self category file (moved_files, skipped_files) w1
               = (inr (moved_files, skipped_files'), w3))
    by now apply move_file_move_raises with (w1 := w2).
  split; [exact Es|].
  rewrite move_all_split. rewrite (bind_value _ _ _ _ _ E0).
  now rewrite (bind_value _ _ _ _ _ Es).
Qed.

(** C7: a file of the plan whose source path does not exist when its turn
    comes goes to the skipped list as "(not found)"; the moved mapping
    and the world are as they were (no folder is created), and the loops go
    on with the remaining files and categories. *)
Theorem missing_source_is_skipped_and_loop_continues (cats1 cats2 : plan)
  (category file : string) (fs1 fs2 : list string)
  (moved_files : plan) (skipped_files : list string) (w0 w1 : W) :
  loops_before self cats1 category fs1 w0
  = (inr (moved_files, skipped_files), w1) ->
  os_path_exists (OsPath.join (desktop_path self) file) w1 = false ->
  let skipped_files' := List.app skipped_files [file ++ " (not found)"] in
  move_file self category file (moved_files, skipped_files) w1
  = (inr (moved_files, skipped_files'), w1)
  /\ move_all self
       (List.app cats1 ((category, List.app fs1 (file :: fs2)) :: cats2)) w0
     = loops_after self category fs2 cats2 (moved_files, skipped_files') w1.
Proof.
  intros E0 E1 skipped_files'.
  assert (Es : move_file self category file (moved_files, skipped_files) w1
               = (inr (moved_files, skipped_files'), w1))
    by now apply move_file_not_found.
  split; [exact Es|].
  rewrite move_all_split. rewrite (bind_value _ _ _ _ _ E0).
  now rewrite (bind_value _ _ _ _ _ Es).
Qed.

(** *** The loops as a sequence of steps *)

Lemma for_each_map {A B S} (g : A -> B) (l : list A) (body : B -> S -> M W S)
  (s : S) (w : W) :
  for_each (map g l) body s w = for_each l (fun a => body (g a)) s w.
Proof.
  revert s w; induction l as [|a l IH]; intros s w; [reflexivity|].
  cbn [map for_each]. apply bind_ext. intros; apply IH.
Qed.

Lemma move_all_steps (categories : plan) (st : plan * list string) (w : W) :
  for_each categories (move_category self) st w
  = move_steps self (plan_steps categories) st w.
Proof.
  unfold move_steps.
  revert st w; induction categories as [|[c fs] rest IH]; intros st w;
    [reflexivity|].
  cbn [for_each plan_steps flat_map]. rewrite for_each_app.
  unfold move_category at 1.
  etransitivity; [|apply bind_ext_l; intros; symmetry; apply for_each_map].
  apply bind_ext. intros; apply IH.
Qed.

Lemma move_steps_app (l1 l2 : list (string * string))
  (st : plan * list string) (w : W) :
  move_steps self (List.app l1 l2) st w
  = bind (move_steps self l1 st) (move_steps self l2) w.
Proof. apply for_each_app. Qed.

Lemma move_steps_cons (c f : string) (l : list (string * string))
  (st : plan * list string) (w : W) :
  move_steps self ((c, f) :: l) st w
  = bind (move_file self c f st) (move_steps self l) w.
Proof. reflexivity. Qed.

(** What a step does to the two accumulators. *)
Lemma move_file_result (c f : string) (m m' : plan) (s s' : list string)
  (w w' : W) :
  move_file self c f (m, s) w = (inr (m', s'), w') ->
  (m' = Py.setdefault_append c f m /\ s' = s)
  \/ (m' = m /\ exists entry, s' = List.app s [entry]).
Proof.
  unfold move_file, bind, read, ret, try.
  destruct (os_path_exists _ w); cbn [negb].
  - destruct (os_makedirs _ w) as [[e1|[]] w1]; [discriminate|].
    destruct (shutil_move _ _ w1) as [[e2|[]] w2]; intros [= <- <- <-]; eauto.
  - intros [= <- <- <-]. eauto.
Qed.

Lemma recorded_cons (k : string) (v : list string) (m : plan) (g : string) :
  recorded ((k, v) :: m) g <-> In g v \/ recorded m g.
Proof.
  unfold recorded. split.
  - intros (c0 & fs & Hin & Hg). destruct Hin as [E|Hin].
    + injection E as <- <-. now left.
    + right. now exists c0, fs.
  - intros [Hg|(c0 & fs & Hin & Hg)].
    + exists k, v. split; [now left|assumption].
    + exists c0, fs. split; [now right|assumption].
Qed.

Lemma recorded_setdefault_append (c f g : string) (m : plan) :
  recorded (Py.setdefault_append c f m) g <-> recorded m g \/ g = f.
Proof.
  induction m as [|[k v] m IH]; cbn [Py.setdefault_append].
  - rewrite recorded_cons. unfold recorded. split.
    + intros [ [ <- | [] ] | (c0 & fs & [] & _) ]. now right.
    + intros [(c0 & fs & [] & _) | ->]. left. now left.
  - destruct (String.eqb k c); rewrite !recorded_cons.
    + rewrite in_app_iff. cbn [In]. intuition congruence.
    + rewrite IH. tauto.
Qed.

(** What is recorded as moved stays recorded. *)
Lemma move_steps_keep_records (steps : list (string * string)) (m m' : plan)
  (s s' : list string) (w w' : W) (g : string) :
  move_steps self steps (m, s) w = (inr (m', s'), w') ->
  recorded m g -> recorded m' g.
Proof.
  revert m s w; induction steps as [|[c f] steps IH]; intros m s w.
  - intros [= <- <- <-]. auto.
  - rewrite move_steps_cons. unfold bind.
    destruct (move_file self c f (m, s) w) as [[e|[m1 s1]] w1] eqn:E;
      [discriminate|].
    intros Hrun Hg. apply (IH _ _ _ Hrun).
    destruct (move_file_result _ _ _ _ _ _ _ _ E) as [[-> _]|[-> _]];
      [|assumption].
    apply recorded_setdefault_append. now left.
Qed.

(** *** Where an exception can come from *)




End OrganizeProperties.

(** ** The POSIX file system *)

(** *** Paths *)

Lemma segments_not_nil (p : string) : Posix.segments p <> [].
Proof.
  destruct p as [|c p]; simpl; [discriminate|].
  destruct (Ascii.eqb c "/"); [discriminate|].
  destruct (Posix.segments p); discriminate.
Qed.

Lemma segments_app_sep (a b : string) :
  Posix.segments (a ++ String "/" b)
  = List.app (Posix.segments a) (Posix.segments b).
Proof.
  induction a as [|c a IH]; [reflexivity|].
  cbn [append Posix.segments]. rewrite IH.
  destruct (Ascii.eqb c "/"); [reflexivity|].
  pose proof (segments_not_nil a) as Hne.
  destruct (Posix.segments a); [contradiction|reflexivity].
Qed.

Lemma segments_no_sep (s : string) :
  Posix.has_sep s = false -> Posix.segments s = [s].
Proof.
  induction s as [|c s IH]; [reflexivity|].
  cbn [Posix.has_sep Posix.segments]. intros E.
  apply orb_false_iff in E as [E1 E2]. rewrite E1, (IH E2). reflexivity.
Qed.

Lemma components_app_sep (a b : string) :
  Posix.components (a ++ String "/" b)
  = List.app (Posix.components a) (Posix.components b).
Proof.
  unfold Posix.components. now rewrite segments_app_sep, filter_app.
Qed.

Lemma valid_name_inv (x : string) :
  Posix.valid_name x = true ->
  x <> "" /\ x <> "." /\ x <> ".." /\ Posix.has_sep x = false.
Proof.
  unfold Posix.valid_name. intros E.
  apply andb_true_iff in E as [E E4]. apply andb_true_iff in E as [E E3].
  apply andb_true_iff in E as [E1 E2].
  rewrite negb_true_iff in E1, E2, E3, E4.
  repeat split; try assumption; now apply String.eqb_neq.
Qed.

Lemma components_valid_name (x : string) :
  Posix.valid_name x = true -> Posix.components x = [x].
Proof.
  intros E. destruct (valid_name_inv x E) as (E1 & E2 & _ & E4).
  unfold Posix.components. rewrite (segments_no_sep x E4).
  cbn [filter]. unfold Posix.is_component.
  apply String.eqb_neq in E1, E2. now rewrite E1, E2.
Qed.

Lemma endswith_sep_split (a : string) :
  OsPath.endswith_sep a = true -> exists a0, a = a0 ++ "/".
Proof.
  unfold OsPath.endswith_sep.
  induction a as [|c a IH]; [discriminate|].
  cbn [String.length]. rewrite Nat.sub_succ, Nat.sub_0_r.
  destruct a as [|c' a].
  - cbn. destruct (Ascii.eqb_spec c "/") as [->|]; [|discriminate].
    intros _. now exists "".
  - cbn [String.length String.get]. intros E.
    cbn [String.length] in IH. rewrite Nat.sub_succ, Nat.sub_0_r in IH.
    destruct (IH E) as [a0 Ha0]. exists (String c a0).
    cbn [append]. now rewrite <- Ha0.
Qed.

Lemma append_empty_r (s : string) : s ++ "" = s.
Proof. induction s; simpl; congruence. Qed.

(** Joining a path and a name gives the path's components, then the
    name. *)
Lemma components_join (a x : string) :
  Posix.valid_name x = true ->
  Posix.components (OsPath.join a x) = List.app (Posix.components a) [x].
Proof.
  intros Hx. pose proof (components_valid_name x Hx) as Hc.
  unfold OsPath.join.
  assert (Py.startswith x "/" = false) as ->.
  { destruct (valid_name_inv x Hx) as (_ & _ & _ & E4).
    destruct x as [|c x]; [reflexivity|].
    cbn [Posix.has_sep] in E4. apply orb_false_iff in E4 as [E _].
    unfold Py.startswith. cbn [String.prefix].
    destruct (ascii_dec "/" c) as [<-|]; [discriminate|reflexivity]. }
  destruct (String.eqb_spec a "") as [->|Ha]; cbn [orb].
  - change ("" ++ x) with x. now rewrite Hc.
  - destruct (OsPath.endswith_sep a) eqn:Ee.
    + destruct (endswith_sep_split a Ee) as [a0 ->].
      replace ((a0 ++ "/") ++ x) with (a0 ++ String "/" x)
        by (clear; induction a0; simpl; congruence).
      replace (a0 ++ "/") with (a0 ++ String "/" "") by reflexivity.
      rewrite !components_app_sep, Hc.
      cbn. now rewrite app_nil_r.
    + change (a ++ "/" ++ x) with (a ++ String "/" x).
      now rewrite components_app_sep, Hc.
Qed.

(** *** Directory entries *)

Lemma find_replace_same (x : string) (n : Posix.node) (es : Posix.entries) :
  Posix.find_entry x (Posix.replace_entry x n es)
  = match Posix.find_entry x es with Some _ => Some n | None => None end.
Proof.
  induction es as [|[y m] es IH]; [reflexivity|]. simpl.
  destruct (String.eqb y x) eqn:E; simpl; rewrite E; [reflexivity|apply IH].
Qed.

Lemma find_replace_other (x y : string) (n : Posix.node) (es : Posix.entries) :
  x <> y ->
  Posix.find_entry y (Posix.replace_entry x n es) = Posix.find_entry y es.
Proof.
  intros Hxy. induction es as [|[z m] es IH]; [reflexivity|]. simpl.
  destruct (String.eqb_spec z x) as [->|]; simpl.
  - apply String.eqb_neq in Hxy. now rewrite Hxy.
  - now rewrite IH.
Qed.

Lemma replace_entry_same (x : string) (n : Posix.node) (es : Posix.entries) :
  Posix.find_entry x es = Some n -> Posix.replace_entry x n es = es.
Proof.
  induction es as [|[y m] es IH]; [reflexivity|]. simpl.
  destruct (String.eqb y x); [now intros [= ->]|].
  intros E. now rewrite IH.
Qed.

Lemma replace_replace (x : string) (a b : Posix.node) (es : Posix.entries) :
  Posix.replace_entry x b (Posix.replace_entry x a es)
  = Posix.replace_entry x b es.
Proof.
  induction es as [|[y m] es IH]; [reflexivity|]. simpl.
  destruct (String.eqb y x) eqn:E; simpl; rewrite E; [reflexivity|].
  now rewrite IH.
Qed.

Lemma find_remove_same (x : string) (es : Posix.entries) :
  Posix.find_entry x (Posix.remove_entry x es) = None.
Proof.
  induction es as [|[y m] es IH]; [reflexivity|].
  unfold Posix.remove_entry in *. simpl.
  destruct (String.eqb y x) eqn:E; simpl; [apply IH|]. now rewrite E.
Qed.

Lemma find_remove_other (x y : string) (es : Posix.entries) :
  x <> y ->
  Posix.find_entry y (Posix.remove_entry x es) = Posix.find_entry y es.
Proof.
  intros Hxy. induction es as [|[z m] es IH]; [reflexivity|].
  unfold Posix.remove_entry in *. simpl.
  destruct (String.eqb_spec z x) as [->|]; simpl.
  - apply String.eqb_neq in Hxy. now rewrite Hxy.
  - now rewrite IH.
Qed.

Lemma find_app_last (x y : string) (n : Posix.node) (es : Posix.entries) :
  Posix.find_entry x (List.app es [(y, n)])
  = match Posix.find_entry x es with
    | Some m => Some m
    | None => if String.eqb y x then Some n else None
    end.
Proof.
  induction es as [|[z m] es IH]; [reflexivity|]. simpl.
  destruct (String.eqb z x); [reflexivity|apply IH].
Qed.

Lemma find_put_same (x : string) (n : Posix.node) (es : Posix.entries) :
  Posix.find_entry x (Posix.put_entry x n es) = Some n.
Proof.
  unfold Posix.put_entry. destruct (Posix.find_entry x es) eqn:E.
  - now rewrite find_replace_same, E.
  - now rewrite find_app_last, E, String.eqb_refl.
Qed.

Lemma find_put_other (x y : string) (n : Posix.node) (es : Posix.entries) :
  x <> y ->
  Posix.find_entry y (Posix.put_entry x n es) = Posix.find_entry y es.
Proof.
  intros Hxy. unfold Posix.put_entry. destruct (Posix.find_entry x es) eqn:E.
  - now apply find_replace_other.
  - rewrite find_app_last. apply String.eqb_neq in Hxy. rewrite Hxy.
    now destruct (Posix.find_entry y es).
Qed.


Lemma in_names_find (x : string) (es : Posix.entries) :
  In x (map fst es) -> exists n, Posix.find_entry x es = Some n.
Proof.
  induction es as [|[y m] es IH]; [contradiction|]. simpl.
  destruct (String.eqb_spec y x); [eauto|].
  intros [E|E]; [contradiction|auto].
Qed.

Lemma names_replace (x : string) (n : Posix.node) (es : Posix.entries) :
  map fst (Posix.replace_entry x n es) = map fst es.
Proof.
  induction es as [|[y m] es IH]; [reflexivity|]. simpl.
  destruct (String.eqb y x); simpl; [reflexivity|now rewrite IH].
Qed.

Lemma names_remove (x y : string) (es : Posix.entries) :
  In y (map fst (Posix.remove_entry x es)) -> In y (map fst es).
Proof.
  unfold Posix.remove_entry. intros Hy.
  apply in_map_iff in Hy as (e & <- & He).
  apply filter_In in He as [He _]. now apply in_map.
Qed.

(** *** Working below a directory *)

Lemma lookup_app (D p : list string) (r : Posix.node) :
  Posix.lookup (List.app D p) r
  = match Posix.lookup D r with
    | Some dn => Posix.lookup p dn
    | None => None
    end.
Proof.
  revert r; induction D as [|x D IH]; intros r; [reflexivity|].
  cbn [List.app Posix.lookup]. destruct r as [|es]; [reflexivity|].
  destruct (Posix.find_entry x es); [apply IH|reflexivity].
Qed.

Lemma lookup_cons_inv (x : string) (D : list string) (r dn : Posix.node) :
  Posix.lookup (x :: D) r = Some dn ->
  exists es child,
    r = Posix.Dir es /\ Posix.find_entry x es = Some child
    /\ Posix.lookup D child = Some dn.
Proof.
  cbn [Posix.lookup]. destruct r as [|es]; [discriminate|].
  destruct (Posix.find_entry x es) as [child|] eqn:E; [|discriminate].
  intros Hl. now exists es, child.
Qed.

Lemma lookup_graft (D : list string) (new r dn : Posix.node) :
  Posix.lookup D r = Some dn ->
  Posix.lookup D (Posix.graft D new r) = Some new.
Proof.
  revert r; induction D as [|x D IH]; intros r Hl; [reflexivity|].
  destruct (lookup_cons_inv _ _ _ _ Hl) as (es & child & -> & Hf & Hc).
  cbn [Posix.graft]. rewrite Hf. cbn [Posix.lookup].
  rewrite find_replace_same, Hf. now apply IH.
Qed.

Lemma graft_same (D : list string) (r dn : Posix.node) :
  Posix.lookup D r = Some dn -> Posix.graft D dn r = r.
Proof.
  revert r; induction D as [|x D IH]; intros r Hl.
  - now injection Hl as ->.
  - destruct (lookup_cons_inv _ _ _ _ Hl) as (es & child & -> & Hf & Hc).
    cbn [Posix.graft]. rewrite Hf, (IH _ Hc).
    now rewrite replace_entry_same.
Qed.

Lemma graft_graft (D : list string) (a b r : Posix.node) :
  Posix.graft D b (Posix.graft D a r) = Posix.graft D b r.
Proof.
  revert r; induction D as [|x D IH]; intros r; [reflexivity|].
  cbn [Posix.graft]. destruct r as [|es]; [reflexivity|].
  destruct (Posix.find_entry x es) as [child|] eqn:E.
  - rewrite find_replace_same, E, IH. now rewrite replace_replace.
  - now rewrite E.
Qed.

Lemma alter_dir_app (D p : list string) (f : Posix.entries -> Posix.entries)
  (r dn : Posix.node) :
  Posix.lookup D r = Some dn ->
  Posix.alter_dir (List.app D p) f r
  = option_map (fun dn' => Posix.graft D dn' r) (Posix.alter_dir p f dn).
Proof.
  revert r; induction D as [|x D IH]; intros r Hl.
  - injection Hl as ->. cbn [List.app Posix.graft].
    now destruct (Posix.alter_dir p f dn).
  - destruct (lookup_cons_inv _ _ _ _ Hl) as (es & child & -> & Hf & Hc).
    cbn [List.app Posix.alter_dir]. rewrite Hf, (IH _ Hc).
    destruct (Posix.alter_dir p f dn); cbn [option_map Posix.graft];
      [now rewrite Hf|reflexivity].
Qed.

Lemma mkdirs_app (D p : list string) (r dn : Posix.node) :
  Posix.lookup D r = Some dn ->
  Posix.mkdirs (List.app D p) r
  = option_map (fun dn' => Posix.graft D dn' r) (Posix.mkdirs p dn).
Proof.
  revert r; induction D as [|x D IH]; intros r Hl.
  - injection Hl as ->. cbn [List.app Posix.graft].
    now destruct (Posix.mkdirs p dn).
  - destruct (lookup_cons_inv _ _ _ _ Hl) as (es & child & -> & Hf & Hc).
    cbn [List.app Posix.mkdirs]. rewrite Hf, (IH _ Hc).
    destruct (Posix.mkdirs p dn); cbn [option_map Posix.graft];
      [now rewrite Hf|reflexivity].
Qed.

Lemma same_path_app (D s d : list string) :
  Posix.same_path (List.app D s) (List.app D d) = Posix.same_path s d.
Proof.
  induction D as [|x D IH]; [reflexivity|].
  cbn [List.app Posix.same_path]. now rewrite String.eqb_refl.
Qed.

Lemma is_prefix_app (D s d : list string) :
  Posix.is_prefix (List.app D s) (List.app D d) = Posix.is_prefix s d.
Proof.
  induction D as [|x D IH]; [reflexivity|].
  cbn [List.app Posix.is_prefix]. now rewrite String.eqb_refl.
Qed.

Lemma last_app_nonempty (D s : list string) (d : string) :
  s <> [] -> last (List.app D s) d = last s d.
Proof.
  intros Hs. induction D as [|x D IH]; [reflexivity|].
  cbn [List.app]. destruct (List.app D s) eqn:E.
  - apply app_eq_nil in E as [_ ->]. contradiction.
  - cbn [last]. exact IH.
Qed.

Lemma rename_app (D s d : list string) (r dn : Posix.node) :
  Posix.lookup D r = Some dn -> s <> [] -> d <> [] ->
  Posix.rename (List.app D s) (List.app D d) r
  = match Posix.rename s d dn with
    | inl e => inl e
    | inr dn' => inr (Posix.graft D dn' r)
    end.
Proof.
  intros Hl Hs Hd. unfold Posix.rename.
  rewrite !lookup_app, Hl, same_path_app, is_prefix_app.
  rewrite !removelast_app, !last_app_nonempty by assumption.
  rewrite !lookup_app, Hl.
  destruct (Posix.lookup s dn) as [n|]; [|reflexivity].
  destruct (Posix.same_path s d); [now rewrite (graft_same _ _ _ Hl)|].
  destruct (Posix.is_prefix s d); [reflexivity|].
  destruct (Posix.lookup (removelast d) dn) as [[|pes]|]; try reflexivity.
  assert (Hgo :
    match
      Posix.alter_dir (List.app D (removelast s))
        (Posix.remove_entry (last s "")) r
    with
    | Some r1 =>
        match
          Posix.alter_dir (List.app D (removelast d))
            (Posix.put_entry (last d "") n) r1
        with
        | Some r2 => inr r2
        | None => inl Posix.ENOENT
        end
    | None => inl Posix.ENOENT
    end
    = match
        match
          Posix.alter_dir (removelast s) (Posix.remove_entry (last s "")) dn
        with
        | Some r1 =>
            match
              Posix.alter_dir (removelast d) (Posix.put_entry (last d "") n) r1
            with
            | Some r2 => inr r2
            | None => inl Posix.ENOENT
            end
        | None => inl Posix.ENOENT
        end
      with
      | inl e => inl e
      | inr dn' => inr (Posix.graft D dn' r)
      end).
  { rewrite (alter_dir_app _ _ _ _ _ Hl).
    destruct (Posix.alter_dir (removelast s) _ dn) as [dn1|];
      cbn [option_map]; [|reflexivity].
    rewrite (alter_dir_app _ _ _ _ _ (lookup_graft _ dn1 _ _ Hl)).
    destruct (Posix.alter_dir (removelast d) _ dn1) as [dn2|];
      cbn [option_map]; [|reflexivity].
    now rewrite graft_graft. }
  destruct (Posix.lookup d dn) as [[|[|? ?]]|], n; try reflexivity; exact Hgo.
Qed.

Lemma rename_or_copy_app (D s d rd : list string) (r dn : Posix.node) :
  Posix.lookup D r = Some dn -> s <> [] -> rd <> [] ->
  Posix.rename_or_copy (List.app D s) (List.app D d) (List.app D rd) r
  = match Posix.rename_or_copy s d rd dn with
    | inl e => inl e
    | inr dn' => inr (Posix.graft D dn' r)
    end.
Proof.
  intros Hl Hs Hrd. unfold Posix.rename_or_copy.
  rewrite (rename_app D s rd r dn Hl Hs Hrd), !lookup_app, Hl, is_prefix_app.
  destruct (Posix.rename s rd dn) as [e|dn']; [|reflexivity].
  destruct (Posix.lookup s dn) as [[|ses]|]; try reflexivity.
  destruct (Posix.is_prefix s d); [reflexivity|].
  destruct (Posix.lookup rd dn); [reflexivity|].
  rewrite removelast_app by assumption.
  rewrite (mkdirs_app _ _ _ _ Hl).
  destruct (Posix.mkdirs (removelast rd) dn) as [dn1|]; cbn [option_map];
    [|reflexivity].
  rewrite (rename_app D s rd _ dn1 (lookup_graft _ dn1 _ _ Hl) Hs Hrd).
  destruct (Posix.rename s rd dn1) as [e1|dn2]; [reflexivity|].
  now rewrite graft_graft.
Qed.

(** A move between two paths below [D] is the move below [D], put back
    in place. *)
Lemma move_paths_app (D s d : list string) (r dn : Posix.node) :
  Posix.lookup D r = Some dn -> s <> [] -> d <> [] ->
  Posix.move_paths (List.app D s) (List.app D d) r
  = match Posix.move_paths s d dn with
    | inl e => inl e
    | inr dn' => inr (Posix.graft D dn' r)
    end.
Proof.
  intros Hl Hs Hd. unfold Posix.move_paths.
  rewrite !lookup_app, Hl, same_path_app, (last_app_nonempty D s "" Hs).
  destruct (Posix.lookup d dn) as [[|des]|].
  - cbn [andb]. now apply rename_or_copy_app.
  - cbn [andb].
    assert (Hgo :
      match
        Posix.lookup (List.app (List.app D d) [last s ""]) r
      with
      | Some _ => inl Posix.DestinationExists
      | None =>
          Posix.rename_or_copy (List.app D s) (List.app D d)
            (List.app (List.app D d) [last s ""]) r
      end
      = match
          match Posix.lookup (List.app d [last s ""]) dn with
          | Some _ => inl Posix.DestinationExists
          | None => Posix.rename_or_copy s d (List.app d [last s ""]) dn
          end
        with
        | inl e => inl e
        | inr dn' => inr (Posix.graft D dn' r)
        end).
    { rewrite <- app_assoc, lookup_app, Hl.
      destruct (Posix.lookup (List.app d [last s ""]) dn); [reflexivity|].
      apply rename_or_copy_app; try assumption.
      now destruct d. }
    destruct (Posix.same_path s d); cbn [andb]; [|exact Hgo].
    destruct (Posix.lookup s dn); [|exact Hgo].
    now rewrite (graft_same _ _ _ Hl).
  - cbn [andb]. now apply rename_or_copy_app.
Qed.

(** *** At the desktop *)

Lemma mkdirs_top (c : string) (es : Posix.entries) :
  Posix.mkdirs [c] (Posix.Dir es)
  = match Posix.find_entry c es with
    | Some (Posix.Dir _) => Some (Posix.Dir es)
    | Some (Posix.File _) => None
    | None => Some (Posix.Dir (List.app es [(c, Posix.Dir [])]))
    end.
Proof.
  cbn [Posix.mkdirs].
  destruct (Posix.find_entry c es) as [[|ces]|] eqn:E; cbn; try reflexivity.
  now rewrite replace_entry_same.
Qed.

(** What moving the entry [f] of a directory to [c/x] does, [c] being a
    directory of it. *)
Lemma move_paths_top (f c x : string) (es ces : Posix.entries) (n : Posix.node) :
  Posix.find_entry f es = Some n ->
  Posix.find_entry c es = Some (Posix.Dir ces) ->
  Posix.move_paths [f] [c; x] (Posix.Dir es)
  = if String.eqb f c then
      match Posix.find_entry x ces with
      | Some (Posix.Dir xes) =>
          match Posix.find_entry f xes with
          | Some _ => inl Posix.DestinationExists
          | None => inl Posix.IntoItself
          end
      | _ => inl Posix.IntoItself
      end
    else
      let moved ces' :=
        Posix.Dir
          (Posix.replace_entry c (Posix.Dir ces') (Posix.remove_entry f es)) in
      match Posix.find_entry x ces with
      | Some (Posix.Dir xes) =>
          match Posix.find_entry f xes with
          | Some _ => inl Posix.DestinationExists
          | None =>
              inr (moved (Posix.replace_entry x
                            (Posix.Dir (Posix.put_entry f n xes)) ces))
          end
      | Some (Posix.File _) =>
          match n with
          | Posix.Dir _ => inl (Posix.OsError Posix.EEXIST)
          | Posix.File _ => inr (moved (Posix.put_entry x n ces))
          end
      | None => inr (moved (Posix.put_entry x n ces))
      end.
Proof.
  intros Hf Hc. cbv zeta.
  assert (Hr : Posix.find_entry c (Posix.remove_entry f es)
               = if String.eqb f c then None else Some (Posix.Dir ces)).
  { destruct (String.eqb_spec f c) as [->|Hfc].
    - apply find_remove_same.
    - now rewrite find_remove_other. }
  unfold Posix.move_paths.
  cbn [Posix.lookup]. rewrite Hc, Hf. cbn [Posix.lookup].
  destruct (Posix.find_entry x ces) as [[d|xes]|] eqn:Ex;
    cbn [andb Posix.same_path last List.app Posix.lookup];
    rewrite ?Hc; cbn [Posix.lookup]; rewrite ?Ex; cbn [Posix.lookup].
  - unfold Posix.rename_or_copy, Posix.rename.
    cbn [Posix.lookup Posix.same_path Posix.is_prefix last removelast
         Posix.alter_dir andb].
    rewrite Hf, Hc. cbn [Posix.lookup]. rewrite Ex, Hr.
    rewrite !andb_false_r, !andb_true_r.
    destruct (String.eqb_spec f c) as [->|Hfc].
    + rewrite Hf in Hc. injection Hc as ->. reflexivity.
    + destruct n; cbn [option_map]; reflexivity.
  - destruct (String.eqb f c) eqn:Efc; rewrite ?andb_false_r; cbn [andb].
    + destruct (Posix.find_entry f xes) eqn:Efx; [reflexivity|].
      unfold Posix.rename_or_copy, Posix.rename.
      cbn [Posix.lookup Posix.same_path Posix.is_prefix last removelast
           Posix.alter_dir andb].
      rewrite Hf, Efc. cbn [andb].
      apply String.eqb_eq in Efc as ->. rewrite Hf in Hc.
      injection Hc as ->. reflexivity.
    + destruct (Posix.find_entry f xes) eqn:Efx; [reflexivity|].
      unfold Posix.rename_or_copy, Posix.rename.
      cbn [Posix.lookup Posix.same_path Posix.is_prefix last removelast
           Posix.alter_dir andb].
      rewrite Hf, Hc, Efc. cbn [Posix.lookup andb]. rewrite Ex.
      cbn [Posix.lookup]. rewrite Efx, Hr.
      cbn [Posix.alter_dir option_map]. rewrite Ex.
      cbn [Posix.alter_dir option_map]. now destruct n.
  - unfold Posix.rename_or_copy, Posix.rename.
    cbn [Posix.lookup Posix.same_path Posix.is_prefix last removelast
         Posix.alter_dir andb].
    rewrite Hf, Hc. cbn [Posix.lookup]. rewrite Ex, Hr.
    rewrite !andb_false_r, !andb_true_r.
    destruct (String.eqb_spec f c) as [->|Hfc].
    + rewrite Hf in Hc. injection Hc as ->. reflexivity.
    + destruct n; cbn [option_map]; reflexivity.
Qed.

(** *** Timestamps *)

Lemma digit_cases (n : nat) :
  is_digit (Posix.digit n) = true /\ Ascii.eqb (Posix.digit n) "/" = false.
Proof.
  unfold Posix.digit.
  pose proof (Nat.mod_upper_bound n 10 ltac:(discriminate)) as Hlt.
  destruct (n mod 10) as [|[|[|[|[|[|[|[|[|[|k]]]]]]]]]];
    try (split; reflexivity). lia.
Qed.


Lemma digit_not_sep (n : nat) : Ascii.eqb (Posix.digit n) "/" = false.
Proof. apply digit_cases. Qed.


Lemma strftime_no_sep (t : Posix.datetime) :
  Posix.has_sep (Posix.strftime t) = false.
Proof.
  unfold Posix.strftime, Posix.digits4, Posix.digits2.
  cbn -[Posix.digit Ascii.eqb]. now rewrite !digit_not_sep.
Qed.

Lemma strftime_length (t : Posix.datetime) :
  String.length (Posix.strftime t) = 15.
Proof. reflexivity. Qed.

Lemma length_append (a b : string) :
  String.length (a ++ b) = String.length a + String.length b.
Proof. induction a; simpl; congruence. Qed.

Lemma has_sep_append (a b : string) :
  Posix.has_sep (a ++ b) = Posix.has_sep a || Posix.has_sep b.
Proof.
  induction a as [|c a IH]; [reflexivity|]. simpl.
  now rewrite IH, orb_assoc.
Qed.

(** The timestamped name is a name again, longer than the one it is made
    from. *)
Lemma timestamped_name_valid (file : string) (t : Posix.datetime) :
  Posix.valid_name file = true ->
  let new_name :=
    fst (OsPath.splitext file) ++ "_" ++ Posix.strftime t
      ++ snd (OsPath.splitext file) in
  Posix.valid_name new_name = true /\ new_name <> file.
Proof.
  intros Hf new_name.
  destruct (valid_name_inv file Hf) as (_ & _ & _ & Hsep).
  pose proof (splitext_concat file) as Hcat.
  assert (Hlen : String.length new_name = String.length file + 16).
  { unfold new_name. rewrite <- Hcat at 3.
    rewrite !length_append, strftime_length. cbn [String.length]. lia. }
  assert (Hns : Posix.has_sep new_name = false).
  { unfold new_name. rewrite <- Hcat in Hsep.
    rewrite has_sep_append in Hsep. apply orb_false_iff in Hsep as [H1 H2].
    rewrite !has_sep_append, H1, H2, strftime_no_sep. reflexivity. }
  split.
  - unfold Posix.valid_name. rewrite Hns.
    destruct (String.eqb_spec new_name "") as [E|_];
      [rewrite E in Hlen; cbn in Hlen; lia|].
    destruct (String.eqb_spec new_name ".") as [E|_];
      [rewrite E in Hlen; cbn in Hlen; lia|].
    destruct (String.eqb_spec new_name "..") as [E|_];
      [rewrite E in Hlen; cbn in Hlen; lia|].
    reflexivity.
  - intros E. rewrite E in Hlen. lia.
Qed.

(** *** One file, on the POSIX file system *)

Section PosixOrganize.

Variable self : DesktopOrganizer.

Let D : list string := Posix.components (desktop_path self).

Lemma posix_exists_top (f : string) (w : Posix.world) (es : Posix.entries) :
  Posix.valid_name f = true ->
  Posix.lookup D (Posix.root w) = Some (Posix.Dir es) ->
  Posix.path_exists (OsPath.join (desktop_path self) f) w
  = match Posix.find_entry f es with Some _ => true | None => false end.
Proof.
  intros Hf Hd. unfold Posix.path_exists.
  rewrite (components_join _ _ Hf). fold D. rewrite lookup_app, Hd.
  cbn [Posix.lookup]. now destruct (Posix.find_entry f es).
Qed.


Lemma posix_makedirs (c : string) (w w1 : Posix.world) (es : Posix.entries)
  (r : exception + unit) :
  Posix.valid_name c = true ->
  Posix.lookup D (Posix.root w) = Some (Posix.Dir es) ->
  Posix.makedirs (OsPath.join (desktop_path self) c) w = (r, w1) ->
  w1 = Posix.tick w (Posix.root w1)
  /\ match Posix.find_entry c es with
     | Some (Posix.File _) =>
         (exists e, r = inl e) /\ Posix.root w1 = Posix.root w
     | Some (Posix.Dir _) => r = inr tt /\ Posix.root w1 = Posix.root w
     | None =>
         r = inr tt
         /\ Posix.lookup D (Posix.root w1)
            = Some (Posix.Dir (List.app es [(c, Posix.Dir [])]))
     end.
Proof.
  intros Hc Hd. unfold Posix.makedirs.
  rewrite (components_join _ _ Hc). fold D.
  rewrite (mkdirs_app _ _ _ _ Hd), mkdirs_top.
  destruct (Posix.find_entry c es) as [[d|ces]|]; cbn [option_map];
    intros [= <- <-]; (split; [reflexivity|]); cbn [Posix.root Posix.tick].
  - eauto.
  - now rewrite (graft_same _ _ _ Hd).
  - split; [reflexivity|]. now apply lookup_graft with (dn := Posix.Dir es).
Qed.

Lemma posix_shutil_move (f c x : string) (w1 w2 : Posix.world)
  (es1 ces1 : Posix.entries) (n : Posix.node) (r : exception + unit) :
  Posix.valid_name f = true -> Posix.valid_name c = true ->
  Posix.valid_name x = true ->
  Posix.lookup D (Posix.root w1) = Some (Posix.Dir es1) ->
  Posix.find_entry f es1 = Some n ->
  Posix.find_entry c es1 = Some (Posix.Dir ces1) ->
  Posix.shutil_move (OsPath.join (desktop_path self) f)
    (OsPath.join (OsPath.join (desktop_path self) c) x) w1 = (r, w2) ->
  w2 = Posix.tick w1 (Posix.root w2)
  /\ (((exists e, r = inl e) /\ Posix.root w2 = Posix.root w1)
      \/ (r = inr tt /\ f <> c
          /\ exists ces',
              Posix.lookup D (Posix.root w2)
              = Some (Posix.Dir
                        (Posix.replace_entry c (Posix.Dir ces')
                           (Posix.remove_entry f es1)))
              /\ (x <> f -> Posix.find_entry f ces' = Posix.find_entry f ces1)
              /\ ((forall xes, Posix.find_entry x ces1 <> Some (Posix.Dir xes)) ->
                  Posix.find_entry x ces' = Some n))).
Proof.
  intros Hf Hc Hx Hd Ef Ec. unfold Posix.shutil_move, Posix.move.
  rewrite (components_join _ _ Hf), (components_join _ _ Hx),
    (components_join _ _ Hc). fold D. rewrite <- app_assoc.
  cbn [List.app].
  rewrite (move_paths_app D [f] [c; x] _ _ Hd) by discriminate.
  rewrite (move_paths_top f c x es1 ces1 n Ef Ec). cbv zeta.
  assert (Hfail : forall e : Posix.move_error,
    forall src dst,
    (inl (Posix.move_exception src dst e), Posix.tick w1 (Posix.root w1))
    = (r, w2) ->
    w2 = Posix.tick w1 (Posix.root w2)
    /\ (((exists e, r = inl e) /\ Posix.root w2 = Posix.root w1)
      \/ (r = inr tt /\ f <> c
          /\ exists ces',
              Posix.lookup D (Posix.root w2)
              = Some (Posix.Dir
                        (Posix.replace_entry c (Posix.Dir ces')
                           (Posix.remove_entry f es1)))
              /\ (x <> f -> Posix.find_entry f ces' = Posix.find_entry f ces1)
              /\ ((forall xes, Posix.find_entry x ces1 <> Some (Posix.Dir xes)) ->
                  Posix.find_entry x ces' = Some n)))).
  { intros e src dst [= <- <-]. split; [reflexivity|]. left. eauto. }
  assert (Hdone : forall ces',
    (x <> f -> Posix.find_entry f ces' = Posix.find_entry f ces1) ->
    ((forall xes, Posix.find_entry x ces1 <> Some (Posix.Dir xes)) ->
       Posix.find_entry x ces' = Some n) ->
    f <> c ->
    (inr tt,
     Posix.tick w1
       (Posix.graft D
          (Posix.Dir
             (Posix.replace_entry c (Posix.Dir ces') (Posix.remove_entry f es1)))
          (Posix.root w1)))
    = (r, w2) ->
    w2 = Posix.tick w1 (Posix.root w2)
    /\ (((exists e, r = inl e) /\ Posix.root w2 = Posix.root w1)
      \/ (r = inr tt /\ f <> c
          /\ exists ces',
              Posix.lookup D (Posix.root w2)
              = Some (Posix.Dir
                        (Posix.replace_entry c (Posix.Dir ces')
                           (Posix.remove_entry f es1)))
              /\ (x <> f -> Posix.find_entry f ces' = Posix.find_entry f ces1)
              /\ ((forall xes, Posix.find_entry x ces1 <> Some (Posix.Dir xes)) ->
                  Posix.find_entry x ces' = Some n)))).
  { intros ces' H1 H2 Hfc [= <- <-]. split; [reflexivity|]. right.
    split; [reflexivity|]. split; [assumption|]. exists ces'.
    cbn [Posix.root Posix.tick].
    split; [now apply lookup_graft with (dn := Posix.Dir es1)|]. auto. }
  destruct (String.eqb_spec f c) as [Efc|Hfc].
  - destruct (Posix.find_entry x ces1) as [[d|xes]|]; try apply Hfail.
    destruct (Posix.find_entry f xes); apply Hfail.
  - destruct (Posix.find_entry x ces1) as [[d|xes]|] eqn:Ex.
    + destruct n as [nd|nes]; [|apply Hfail].
      apply Hdone; [| |assumption].
      * intros Hxf. now apply find_put_other.
      * intros _. apply find_put_same.
    + destruct (Posix.find_entry f xes) eqn:Efx; [apply Hfail|].
      apply Hdone; [| |assumption].
      * intros Hxf. now apply find_replace_other.
      * intros Hno. now destruct (Hno xes).
    + apply Hdone; [| |assumption].
      * intros Hxf. now apply find_put_other.
      * intros _. apply find_put_same.
Qed.

Lemma posix_destination (c f : string) (w1 : Posix.world) :
  Posix.valid_name f = true ->
  let folder_path := OsPath.join (desktop_path self) c in
  let new_name :=
    fst (OsPath.splitext f) ++ "_"
      ++ Posix.strftime (Posix.clock w1 (Posix.ticks w1))
      ++ snd (OsPath.splitext f) in
  exists x,
    destination self c f w1 = OsPath.join folder_path x
    /\ Posix.valid_name x = true
    /\ ((Posix.path_exists (OsPath.join folder_path f) w1 = false /\ x = f)
        \/ (Posix.path_exists (OsPath.join folder_path f) w1 = true
            /\ x = new_name /\ x <> f)).
Proof.
  intros Hf folder_path new_name. unfold destination.
  cbn [os_path_exists now_strftime Posix.posix]. fold folder_path.
  destruct (Posix.path_exists (OsPath.join folder_path f) w1) eqn:E.
  - exists new_name.
    destruct (timestamped_name_valid f
                (Posix.clock w1 (Posix.ticks w1)) Hf) as [Hv Hne].
    split; [now destruct (OsPath.splitext f)|]. auto.
  - exists f. auto.
Qed.

Lemma desk_frame_refl (c : string) (es : Posix.entries) : desk_frame c es es.
Proof. unfold desk_frame. auto. Qed.

Lemma desk_frame_trans (c : string) (es es1 es2 : Posix.entries) :
  desk_frame c es es1 -> desk_frame c es1 es2 -> desk_frame c es es2.
Proof.
  intros (A1 & B1 & C1) (A2 & B2 & C2). repeat split.
  - intros n Hn. destruct (A2 n Hn) as [Hn1|]; auto.
  - auto.
  - auto.
Qed.

Lemma desk_frame_mkdir (c : string) (es : Posix.entries) :
  Posix.find_entry c es = None ->
  desk_frame c es (List.app es [(c, Posix.Dir [])]).
Proof.
  intros Ec. repeat split.
  - intros n Hn. rewrite map_app in Hn. apply in_app_or in Hn as [Hn|Hn];
      [now left|]. right. destruct Hn as [<-|[]]. reflexivity.
  - intros n d. rewrite find_app_last.
    destruct (Posix.find_entry n es); [auto|].
    destruct (String.eqb c n); discriminate.
  - intros n Hn En. rewrite find_app_last, En.
    destruct (String.eqb_spec c n); [congruence|reflexivity].
Qed.

Lemma desk_frame_moved (c f : string) (es ces' : Posix.entries) :
  desk_frame c es
    (Posix.replace_entry c (Posix.Dir ces') (Posix.remove_entry f es)).
Proof.
  repeat split.
  - intros n Hn. rewrite names_replace in Hn. left.
    now apply names_remove in Hn.
  - intros n d. destruct (String.eqb_spec c n) as [<-|Hcn].
    + rewrite find_replace_same.
      destruct (Posix.find_entry c (Posix.remove_entry f es)); discriminate.
    + rewrite (find_replace_other _ _ _ _ Hcn).
      destruct (String.eqb_spec f n) as [<-|Hfn].
      * now rewrite find_remove_same.
      * now rewrite (find_remove_other _ _ _ Hfn).
  - intros n Hn En.
    rewrite find_replace_other by congruence.
    destruct (String.eqb_spec f n) as [<-|Hfn].
    + apply find_remove_same.
    + now rewrite (find_remove_other _ _ _ Hfn).
Qed.

Lemma app_one_neq {A} (l : list A) (x : A) : List.app l [x] <> l.
Proof.
  intros E. apply (f_equal (@List.length A)) in E.
  rewrite length_app in E. cbn in E. lia.
Qed.

(** One step of the loops on the POSIX file system: the desktop stays a
    directory, its entries change within [desk_frame], and either the file
    is recorded as moved and its name is gone from the desktop, or an
    entry is added to the skipped list. *)
Lemma posix_move_file (c f : string) (m : plan) (s : list string)
  (w w' : Posix.world) (es : Posix.entries)
  (res : exception + plan * list string) :
  Posix.valid_name c = true -> Posix.valid_name f = true ->
  Posix.lookup D (Posix.root w) = Some (Posix.Dir es) ->
  move_file self c f (m, s) w = (res, w') ->
  exists es',
    Posix.lookup D (Posix.root w') = Some (Posix.Dir es')
    /\ desk_frame c es es'
    /\ match res with
       | inl _ => True
       | inr (m', s') =>
           (m' = Py.setdefault_append c f m /\ s' = s
            /\ Posix.find_entry f es' = None)
           \/ (m' = m /\ exists entry, s' = List.app s [entry])
       end.
Proof.
  intros Hc Hf Hd Hstep.
  pose proof (posix_exists_top f w es Hf Hd) as Hex.
  destruct (Posix.find_entry f es) as [n|] eqn:Ef.
  2:{ rewrite (move_file_not_found (H := Posix.posix) self c f m s w Hex) in Hstep.
      injection Hstep as <- <-. exists es.
      split; [assumption|]. split; [apply desk_frame_refl|]. right. eauto. }
  destruct (Posix.makedirs (OsPath.join (desktop_path self) c) w)
    as [r1 w1] eqn:Em.
  destruct (posix_makedirs c w w1 es r1 Hc Hd Em) as [_ Hmk].
  assert (Hes1 :
    (exists e, r1 = inl e /\ Posix.root w1 = Posix.root w)
    \/ (r1 = inr tt
        /\ exists es1 ces1,
            Posix.lookup D (Posix.root w1) = Some (Posix.Dir es1)
            /\ desk_frame c es es1
            /\ Posix.find_entry f es1 = Some n
            /\ Posix.find_entry c es1 = Some (Posix.Dir ces1))).
  { destruct (Posix.find_entry c es) as [[d|ces]|] eqn:Ec.
    - destruct Hmk as [[e ->] Hr]. left. eauto.
    - destruct Hmk as [-> Hr]. right. split; [reflexivity|].
      exists es, ces. rewrite Hr. auto using desk_frame_refl.
    - destruct Hmk as [-> Hl]. right. split; [reflexivity|].
      exists (List.app es [(c, Posix.Dir [])]), [].
      split; [assumption|]. split; [now apply desk_frame_mkdir|].
      rewrite !find_app_last, Ef, Ec, String.eqb_refl. auto. }
  destruct Hes1 as [(e & -> & Hr)|(-> & es1 & ces1 & Hd1 & Hfr1 & Ef1 & Ec1)].
  { rewrite (move_file_makedirs_raises (H := Posix.posix) self c f (m, s) w w1 e Hex Em) in Hstep.
    injection Hstep as <- <-. exists es. rewrite Hr.
    auto using desk_frame_refl. }
  destruct (posix_destination c f w1 Hf) as (x & Hdest & Hx & _).
  destruct (Posix.shutil_move (OsPath.join (desktop_path self) f)
              (destination self c f w1) w1) as [r2 w2] eqn:Emv.
  pose proof Emv as Emv'. rewrite Hdest in Emv'.
  destruct (posix_shutil_move f c x w1 w2 es1 ces1 n r2 Hf Hc Hx Hd1 Ef1 Ec1 Emv')
    as [_ [[[e ->] Hr]|(-> & Hfc & ces' & Hd2 & _)]].
  - rewrite (move_file_move_raises (H := Posix.posix) self c f m s w w1 w2 e Hex Em Emv) in Hstep.
    injection Hstep as <- <-. exists es1. rewrite Hr.
    split; [assumption|]. split; [assumption|]. right. eauto.
  - rewrite (move_file_moved (H := Posix.posix) self c f m s w w1 w2 Hex Em Emv) in Hstep.
    injection Hstep as <- <-.
    exists (Posix.replace_entry c (Posix.Dir ces') (Posix.remove_entry f es1)).
    split; [assumption|].
    split; [eapply desk_frame_trans; [eassumption|apply desk_frame_moved]|].
    left. split; [reflexivity|]. split; [reflexivity|].
    rewrite find_replace_other by congruence. apply find_remove_same.
Qed.

(** A name found on the desktop: the desktop is a directory. *)
Lemma posix_exists_desktop (f : string) (w : Posix.world) :
  Posix.valid_name f = true ->
  Posix.path_exists (OsPath.join (desktop_path self) f) w = true ->
  exists es n,
    Posix.lookup D (Posix.root w) = Some (Posix.Dir es)
    /\ Posix.find_entry f es = Some n.
Proof.
  intros Hf. unfold Posix.path_exists.
  rewrite (components_join _ _ Hf). fold D. rewrite lookup_app.
  destruct (Posix.lookup D (Posix.root w)) as [[d|es]|]; try discriminate.
  cbn [Posix.lookup].
  destruct (Posix.find_entry f es) as [n|] eqn:Ef; [|discriminate].
  intros _. now exists es, n.
Qed.

(** *** The loops, on the POSIX file system *)

(** A run of the loops: the desktop stays a directory; a new name on it is
    a category of the run; no regular file appears on it; a name that was
    absent and is no category stays absent; and what the run records as
    moved is not a regular file of the desktop afterwards. *)
Lemma posix_move_steps (steps : list (string * string)) (m m' : plan)
  (s s' : list string) (w w' : Posix.world) (es : Posix.entries) :
  valid_steps steps ->
  Posix.lookup D (Posix.root w) = Some (Posix.Dir es) ->
  move_steps self steps (m, s) w = (inr (m', s'), w') ->
  exists es',
    Posix.lookup D (Posix.root w') = Some (Posix.Dir es')
    /\ (forall n, In n (map fst es') ->
                  In n (map fst es) \/ In n (map fst steps))
    /\ (forall n d,
          Posix.find_entry n es' = Some (Posix.File d) ->
          Posix.find_entry n es = Some (Posix.File d))
    /\ (forall n,
          ~ In n (map fst steps) ->
          Posix.find_entry n es = None -> Posix.find_entry n es' = None)
    /\ (forall g,
          recorded m' g ->
          recorded m g \/ forall d, Posix.find_entry g es' <> Some (Posix.File d)).
Proof.
  revert m s w es; induction steps as [|[c f] steps IH]; intros m s w es Hv Hd.
  - intros [= <- <- <-]. exists es. repeat split; auto.
  - rewrite move_steps_cons. unfold bind.
    destruct (move_file self c f (m, s) w) as [[e|[m1 s1]] w1] eqn:E;
      [discriminate|].
    intros Hrun. inversion Hv as [|? ? [Hc Hf] Hv']; subst.
    cbn [fst snd] in Hc, Hf.
    destruct (posix_move_file c f m s w w1 es _ Hc Hf Hd E)
      as (es1 & Hd1 & (A1 & B1 & C1) & Hres).
    destruct (IH m1 s1 w1 es1 Hv' Hd1 Hrun) as (es' & Hd' & A & B & C & R).
    exists es'. split; [assumption|]. cbn [map fst In].
    split; [|split; [|split]].
    + intros n Hn. destruct (A n Hn) as [Hn1|Hn1]; [|auto].
      destruct (A1 n Hn1) as [ | -> ]; auto.
    + auto.
    + intros n Hn En. apply C; [tauto|]. apply C1; [|assumption].
      intros ->. tauto.
    + intros g Hg. destruct (R g Hg) as [Hg1|Hno]; [|now right].
      destruct Hres as [(-> & _ & Ef1)|(-> & _)]; [|now left].
      apply recorded_setdefault_append in Hg1 as [Hg1 | ->]; [now left|].
      right. intros d Ed. apply B in Ed. congruence.
Qed.

Lemma filter_none {A} (p : A -> bool) (l : list A) :
  (forall x, In x l -> p x = false) -> filter p l = [].
Proof.
  induction l as [|x l IH]; intros Hp; [reflexivity|]. cbn [filter].
  rewrite (Hp x (or_introl eq_refl)). apply IH. intros y Hy. apply Hp. now right.
Qed.

(** *** C8 *)


(** *** C10, as amended *)

(** C10, amended: take a file [f] that the plan names more than once, an
    occurrence of it, under [c], that is moved, and a later occurrence,
    under whatever category, that the run reaches. That later occurrence
    is skipped as "(not found)" and nothing is moved or made for it,
    provided that [c], [f] and the categories and files of the steps in
    between are single path components, and that none of these categories
    bears the name [f] (its folder would put that name back on the
    desktop). The name is then both in the moved mapping and in the
    skipped list. *)
Theorem repeated_file_is_skipped_as_not_found (categories : plan)
  (pre mid post : list (string * string)) (c c' f : string)
  (w0 w w1 w2 : Posix.world) (m0 m2 : plan) (s0 s2 : list string) :
  plan_steps categories
  = List.app pre ((c, f) :: List.app mid ((c', f) :: post)) ->
  Posix.valid_name c = true -> Posix.valid_name f = true ->
  valid_steps mid -> ~ In f (map fst mid) ->
  move_steps self pre ([], []) w0 = (inr (m0, s0), w) ->
  move_file self c f (m0, s0) w
  = (inr (Py.setdefault_append c f m0, s0), w1) ->
  move_steps self mid (Py.setdefault_append c f m0, s0) w1
  = (inr (m2, s2), w2) ->
  let skipped_files' := List.app s2 [f ++ " (not found)"] in
  move_file self c' f (m2, s2) w2 = (inr (m2, skipped_files'), w2)
  /\ move_all self categories w0 = move_steps self post (m2, skipped_files') w2
  /\ recorded m2 f
  /\ In (f ++ " (not found)") skipped_files'.
Proof.
  intros Hsplit Hc Hf Hmid Hno Hpre Hstep Hrun skipped_files'.
  assert (Hex : Posix.path_exists (OsPath.join (desktop_path self) f) w = true).
  { destruct (Posix.path_exists (OsPath.join (desktop_path self) f) w) eqn:Ex;
      [reflexivity|].
    rewrite (move_file_not_found (H := Posix.posix) self c f m0 s0 w Ex)
      in Hstep.
    injection Hstep as _ Hs _. now apply app_one_neq in Hs. }
  destruct (posix_exists_desktop f w Hf Hex) as (es & n & Hd & Ef).
  destruct (posix_move_file c f m0 s0 w w1 es _ Hc Hf Hd Hstep)
    as (es1 & Hd1 & _ & Hres).
  assert (Ef1 : Posix.find_entry f es1 = None).
  { destruct Hres as [(_ & _ & E)|(_ & entry & Hs)]; [assumption|].
    symmetry in Hs. now apply app_one_neq in Hs. }
  destruct (posix_move_steps mid _ _ _ _ _ _ es1 Hmid Hd1 Hrun)
    as (es2 & Hd2 & _ & _ & C & _).
  pose proof (C f Hno Ef1) as Ef2.
  assert (Hlast : move_file self c' f (m2, s2) w2
                  = (inr (m2, skipped_files'), w2)).
  { apply (move_file_not_found (H := Posix.posix)).
    change (Posix.path_exists (OsPath.join (desktop_path self) f) w2 = false).
    now rewrite (posix_exists_top f w2 es2 Hf Hd2), Ef2. }
  split; [exact Hlast|]. split; [|split].
  - unfold move_all. rewrite move_all_steps, Hsplit, move_steps_app.
    rewrite (bind_value _ _ _ _ _ Hpre), move_steps_cons.
    rewrite (bind_value _ _ _ _ _ Hstep), move_steps_app.
    rewrite (bind_value _ _ _ _ _ Hrun), move_steps_cons.
    now rewrite (bind_value _ _ _ _ _ Hlast).
  - apply (move_steps_keep_records self mid _ _ _ _ _ _ f Hrun).
    apply recorded_setdefault_append. now right.
  - apply in_or_app. right. now left.
Qed.

(** *** C5, as amended *)


(** *** C2, as amended *)


End PosixOrganize.

(** * Further properties *)

(** ** The fallback plan *)

Lemma get_setdefault_append_other (k c x : string) (d : plan) :
  k <> c -> Py.get (Py.setdefault_append k x d) c = Py.get d c.
Proof.
  intros Hkc. induction d as [|[k' v] d IH]; cbn [Py.setdefault_append Py.get].
  - apply String.eqb_neq in Hkc. now rewrite Hkc.
  - destruct (String.eqb_spec k' k) as [->|Hk]; cbn [Py.get].
    + apply String.eqb_neq in Hkc. now rewrite Hkc.
    + now rewrite IH.
Qed.

Lemma get_none_iff {V} (d : Py.dict V) (k : string) :
  Py.get d k = None <-> ~ In k (map fst d).
Proof.
  induction d as [|[k' v] d IH]; cbn [Py.get map fst In]; [tauto|].
  destruct (String.eqb_spec k' k) as [->|Hk].
  - split; [discriminate|]. intros Hn. exfalso. apply Hn. now left.
  - rewrite IH. tauto.
Qed.

Lemma keys_setdefault_append (k x : string) (d : plan) :
  map fst (Py.setdefault_append k x d)
  = match Py.get d k with
    | Some _ => map fst d
    | None => List.app (map fst d) [k]
    end.
Proof.
  induction d as [|[k' v] d IH]; cbn [Py.setdefault_append Py.get map fst];
    [reflexivity|].
  destruct (String.eqb k' k); cbn [map fst]; [reflexivity|].
  rewrite IH. now destruct (Py.get d k).
Qed.

Lemma files_setdefault_append (k x : string) (d : plan) :
  Permutation (List.concat (map snd (Py.setdefault_append k x d)))
    (x :: List.concat (map snd d)).
Proof.
  induction d as [|[k' v] d IH]; cbn [Py.setdefault_append];
    [apply Permutation_refl|].
  destruct (String.eqb k' k); cbn [map snd List.concat].
  - rewrite <- app_assoc. cbn [List.app].
    apply Permutation_sym, Permutation_middle.
  - eapply perm_trans; [apply Permutation_app_head, IH|].
    apply Permutation_sym, Permutation_middle.
Qed.

Lemma nonempty_setdefault_append (k x : string) (d : plan) :
  Forall (fun entry => snd entry <> []) d ->
  Forall (fun entry => snd entry <> []) (Py.setdefault_append k x d).
Proof.
  induction 1 as [|[k' v] d Hv Hd IH]; cbn [Py.setdefault_append].
  - constructor; [discriminate|constructor].
  - destruct (String.eqb k' k); constructor; try assumption.
    cbn [snd]. now destruct v.
Qed.

(** The loop of the fallback, from any dictionary: what a key holds
    afterwards. *)
Lemma fallback_fold_get (files : list string) (d : plan) (c : string) :
  Py.get
    (fold_left
       (fun extensions file =>
          Py.setdefault_append (fallback_category file) file extensions)
       files d) c
  = match
      Py.get d c,
      filter (fun file => String.eqb (fallback_category file) c) files
    with
    | Some v, fs => Some (List.app v fs)
    | None, [] => None
    | None, fs => Some fs
    end.
Proof.
  revert d; induction files as [|f files IH]; intros d; cbn [fold_left filter].
  - destruct (Py.get d c); [now rewrite app_nil_r|reflexivity].
  - rewrite IH. destruct (String.eqb_spec (fallback_category f) c) as [<-|Hc].
    + rewrite get_setdefault_append. unfold Py.get_default.
      destruct (Py.get d (fallback_category f)); [|reflexivity].
      now rewrite <- app_assoc.
    + now rewrite (get_setdefault_append_other _ _ _ _ Hc).
Qed.

(** X1. The fallback plan, looked up: under a category are the input files
    of that category, in the order of the input; a category that no input
    file has is no key. *)
Theorem fallback_plan_lookup (files : list string) (c : string) :
  Py.get (fallback_categorize files) c
  = match filter (fun file => String.eqb (fallback_category file) c) files with
    | [] => None
    | fs => Some fs
    end.
Proof. unfold fallback_categorize. now rewrite fallback_fold_get. Qed.

Lemma fallback_fold_partition (files : list string) (d : plan) :
  NoDup (map fst d) -> Forall (fun entry => snd entry <> []) d ->
  let d' :=
    fold_left
      (fun extensions file =>
         Py.setdefault_append (fallback_category file) file extensions)
      files d in
  NoDup (map fst d')
  /\ Forall (fun entry => snd entry <> []) d'
  /\ Permutation (List.concat (map snd d')) (List.app (List.concat (map snd d)) files).
Proof.
  cbv zeta. revert d; induction files as [|f files IH]; intros d Hk Hv;
    cbn [fold_left].
  - rewrite app_nil_r. auto using Permutation_refl.
  - destruct (IH (Py.setdefault_append (fallback_category f) f d))
      as (K & V & P).
    + rewrite keys_setdefault_append.
      destruct (Py.get d (fallback_category f)) eqn:E; [assumption|].
      apply get_none_iff in E.
      apply NoDup_rev in Hk. rewrite <- (rev_involutive (List.app _ _)).
      apply NoDup_rev. rewrite rev_app_distr. cbn [rev List.app].
      constructor; [|assumption]. now rewrite <- in_rev.
    + now apply nonempty_setdefault_append.
    + split; [assumption|]. split; [assumption|].
      eapply perm_trans; [exact P|].
      eapply perm_trans;
        [apply Permutation_app_tail, files_setdefault_append|].
      cbn [List.app]. apply Permutation_middle.
Qed.

(** X2. The fallback plan is a partition of the input: its categories are
    distinct, none is empty, and its lists together hold the input files,
    each as often as the input does. *)
Theorem fallback_plan_is_a_partition (files : list string) :
  NoDup (map fst (fallback_categorize files))
  /\ Forall (fun entry => snd entry <> []) (fallback_categorize files)
  /\ Permutation (List.concat (map snd (fallback_categorize files))) files.
Proof.
  apply (fallback_fold_partition files []); constructor.
Qed.

Lemma fallback_category_folder (file : string) :
  In (fallback_category file) fallback_folders.
Proof.
  unfold fallback_category.
  match goal with
  | |- In (Py.get_default ?d ?k ?dflt) _ =>
      destruct (get_default_cases d k dflt) as [E|E]
  end.
  - rewrite E. cbn. tauto.
  - cbn in E. unfold fallback_folders. cbn [In].
    repeat (destruct E as [E|E]; [rewrite <- E; tauto|]). destruct E.
Qed.

Lemma fallback_key_is_folder (files : list string) (c : string) :
  In c (map fst (fallback_categorize files)) -> In c fallback_folders.
Proof.
  intros Hc.
  destruct (Py.get (fallback_categorize files) c) as [fs|] eqn:E.
  - unfold fallback_categorize in E. rewrite fallback_fold_get in E.
    cbn [Py.get] in E.
    destruct (filter _ files) as [|f fs'] eqn:Ef; [discriminate|].
    assert (Hf : In f (filter
                         (fun file => String.eqb (fallback_category file) c)
                         files))
      by (rewrite Ef; now left).
    apply filter_In in Hf as [_ Hf]. apply String.eqb_eq in Hf as <-.
    apply fallback_category_folder.
  - now apply get_none_iff in E.
Qed.

(** X3. Whatever the files are called, the fallback files them under at
    most seven categories: "Images", "Documents", "Videos", "Audio",
    "Archives", "Code" and "Other". *)
Theorem fallback_plan_categories (files : list string) (c : string) :
  In c (map fst (fallback_categorize files)) -> In c fallback_folders.
Proof. apply fallback_key_is_folder. Qed.

(** ** The tools, over any operating system: more *)

Lemma filed_cons (k : string) (v : list string) (m : plan) (c g : string) :
  filed ((k, v) :: m) c g <-> (c = k /\ In g v) \/ filed m c g.
Proof.
  unfold filed. split.
  - intros (fs & Hin & Hg). destruct Hin as [E|Hin].
    + injection E as <- <-. now left.
    + right. now exists fs.
  - intros [[-> Hg]|(fs & Hin & Hg)].
    + exists v. split; [now left|assumption].
    + exists fs. split; [now right|assumption].
Qed.

Lemma filed_setdefault_append (c f c0 g : string) (m : plan) :
  filed (Py.setdefault_append c f m) c0 g
  <-> filed m c0 g \/ (c0 = c /\ g = f).
Proof.
  induction m as [|[k v] m IH]; cbn [Py.setdefault_append].
  - rewrite filed_cons. unfold filed. cbn [In]. split.
    + intros [[-> [<-|[]]]|(fs & [] & _)]. now right.
    + intros [(fs & [] & _)|[-> ->]]. left. auto.
  - destruct (String.eqb_spec k c) as [->|Hk]; rewrite !filed_cons.
    + rewrite in_app_iff. cbn [In]. intuition congruence.
    + rewrite IH. tauto.
Qed.

Section MoreToolProperties.

Context {W : Type} `{OS W}.
Variable self : DesktopOrganizer.

(** What a step does to the two accumulators, with the entry it adds. *)
Lemma move_file_outcome (c f : string) (m m' : plan) (s s' : list string)
  (w w' : W) :
  move_file self c f (m, s) w = (inr (m', s'), w') ->
  (m' = Py.setdefault_append c f m /\ s' = s)
  \/ (m' = m
      /\ exists reason, s' = List.app s [f ++ " (" ++ reason ++ ")"]).
Proof.
  unfold move_file, bind, read, ret, try.
  destruct (os_path_exists _ w); cbn [negb].
  - destruct (os_makedirs _ w) as [[e1|[]] w1]; [discriminate|].
    destruct (shutil_move _ _ w1) as [[e2|[]] w2]; intros [= <- <- <-].
    + right. split; [reflexivity|]. now exists (exc_str e2).
    + now left.
  - intros [= <- <- <-]. right. split; [reflexivity|]. now exists "not found".
Qed.

Lemma move_steps_account (steps : list (string * string)) (m m' : plan)
  (s s' : list string) (w w' : W) :
  move_steps self steps (m, s) w = (inr (m', s'), w') ->
  List.length (List.concat (map snd m')) + List.length s'
  = List.length (List.concat (map snd m)) + List.length s + List.length steps
  /\ (forall c f, filed m' c f -> filed m c f \/ In (c, f) steps)
  /\ (forall entry,
        In entry s' ->
        In entry s
        \/ exists c f reason,
            In (c, f) steps /\ entry = f ++ " (" ++ reason ++ ")").
Proof.
  revert m s w; induction steps as [|[c f] steps IH]; intros m s w.
  - intros [= <- <- <-]. cbn [List.length]. split; [lia|]. auto.
  - rewrite move_steps_cons. unfold bind.
    destruct (move_file self c f (m, s) w) as [[e|[m1 s1]] w1] eqn:E;
      [discriminate|].
    intros Hrun. destruct (IH _ _ _ Hrun) as (L & F & S).
    destruct (move_file_outcome _ _ _ _ _ _ _ _ E)
      as [[-> ->]|[-> (reason & ->)]].
    + split; [|split].
      * rewrite L, (Permutation_length (files_setdefault_append c f m)).
        cbn [List.length]. lia.
      * intros c0 g Hg. destruct (F c0 g Hg) as [Hg1|Hg1].
        -- apply filed_setdefault_append in Hg1 as [Hg1|[-> ->]];
             [now left|]. right. now left.
        -- right. now right.
      * intros entry He. destruct (S entry He) as [He1|(c0 & g & r & Hin & ->)];
          [now left|]. right. exists c0, g, r. split; [now right|reflexivity].
    + split; [|split].
      * rewrite L, length_app. cbn [List.length]. lia.
      * intros c0 g Hg. destruct (F c0 g Hg) as [Hg1|Hg1];
          [now left|right; now right].
      * intros entry He. destruct (S entry He) as [He1|(c0 & g & r & Hin & ->)].
        -- apply in_app_or in He1 as [He1|[<-|[]]]; [now left|].
           right. exists c, f, reason. split; [now left|reflexivity].
        -- right. exists c0, g, r. split; [now right|reflexivity].
Qed.

(** X5. When the loops of [organize] come to their end, every file of the
    plan has been counted once: the files in the moved mapping and the
    entries of the skipped list are together as many as the plan has
    (category, file) pairs. *)
Theorem every_planned_file_is_moved_or_skipped (categories moved_files : plan)
  (skipped_files : list string) (w w' : W) :
  move_all self categories w = (inr (moved_files, skipped_files), w') ->
  List.length (List.concat (map snd moved_files)) + List.length skipped_files
  = List.length (plan_steps categories).
Proof.
  unfold move_all. rewrite move_all_steps. intros Hrun.
  destruct (move_steps_account _ _ _ _ _ _ _ Hrun) as (L & _).
  cbn in L. lia.
Qed.

(** X6. What the loops record comes from the plan: a file recorded as
    moved under a category is a file the plan has under that category, and
    an entry of the skipped list is a file name of the plan followed by a
    reason in parentheses. *)
Theorem records_come_from_the_plan (categories moved_files : plan)
  (skipped_files : list string) (w w' : W) :
  move_all self categories w = (inr (moved_files, skipped_files), w') ->
  (forall c f, filed moved_files c f -> In (c, f) (plan_steps categories))
  /\ (forall entry,
        In entry skipped_files ->
        exists c f reason,
          In (c, f) (plan_steps categories)
          /\ entry = f ++ " (" ++ reason ++ ")").
Proof.
  unfold move_all. rewrite move_all_steps. intros Hrun.
  destruct (move_steps_account _ _ _ _ _ _ _ Hrun) as (_ & F & S). split.
  - intros c f Hf. destruct (F c f Hf) as [(fs & [] & _)|]. assumption.
  - intros entry He. destruct (S entry He) as [[]|]. assumption.
Qed.

(** X4. When the chat completion raises, [analyze_files] still returns,
    without touching the world, a plan that files every input file once:
    distinct categories among the seven of the fallback, and lists that
    together hold the input. *)
Theorem analyze_files_falls_back_to_a_partition (files : list string) (w : W)
  (e : exception) :
  chat_completion files w = inl e ->
  exists categories,
    analyze_files files w = (inr categories, w)
    /\ NoDup (map fst categories)
    /\ (forall c, In c (map fst categories) -> In c fallback_folders)
    /\ Permutation (List.concat (map snd categories)) files.
Proof.
  intros Hfail. destruct files as [|f files].
  - exists []. split; [reflexivity|]. split; [constructor|].
    split; [intros c []|constructor].
  - exists (fallback_categorize (f :: files)). split.
    + unfold analyze_files, bind, try, read_or_raise, ret. now rewrite Hfail.
    + destruct (fallback_fold_partition (f :: files) [])
        as (K & _ & P); [constructor|constructor|].
      split; [exact K|]. split; [|exact P].
      intros c Hc. now apply fallback_key_is_folder with (files := f :: files).
Qed.

(** X7. A desktop on which every entry is hidden or is no regular file
    has nothing to organize: in both modes the reply says so, and the
    world is left as it is. *)
Theorem organize_without_files (dry_run : bool) (w : W) (items : list string) :
  os_listdir (desktop_path self) w = inr items ->
  (forall item,
     In item items ->
     Py.startswith item "." = true
     \/ os_path_isfile (OsPath.join (desktop_path self) item) w = false) ->
  organize self dry_run w = (Text "No files to organize on the desktop.", w).
Proof.
  intros Hl Hnone.
  unfold organize, report, organize_try, bind, read_or_raise, read, ret.
  rewrite Hl.
  assert (list_files self items w = []) as ->; [|reflexivity].
  unfold list_files. apply filter_none. intros item Hin.
  destruct (Hnone item Hin) as [-> | ->]; [reflexivity|apply andb_false_r].
Qed.

(** *** What [show_status] lists *)

Lemma in_bullets (x : string) (l : list string) :
  In ("  - " ++ x) (map (fun name => "  - " ++ name) (Py.sorted l)) <-> In x l.
Proof.
  rewrite in_map_iff. split.
  - intros (y & E & Hy). cbn in E. injection E as ->.
    eapply Permutation_in; [apply sorted_perm|exact Hy].
  - intros Hx. exists x. split; [reflexivity|now apply in_sorted].
Qed.

Lemma in_status_lines (x : string) (files folders : list string) :
  In ("  - " ++ x) (status_lines files folders) <-> In x folders \/ In x files.
Proof.
  unfold status_lines.
  assert (Hsec : forall title l,
            l <> [] ->
            In ("  - " ++ x)
              ((Py.LF ++ title)
               :: map (fun name => "  - " ++ name) (Py.sorted l))
            <-> In x l).
  { intros title l _. cbn [In]. rewrite in_bullets. split; [|auto].
    intros [E|Hx]; [discriminate E|assumption]. }
  destruct folders as [|d ds], files as [|f fs].
  - cbn. split; [intros [E|[E|[]]]; discriminate E|tauto].
  - rewrite in_app_iff, Hsec by discriminate. cbn [In]. split.
    + intros [[E|[E|[]]]|Hx]; try discriminate E. now right.
    + intros [[]|Hx]. now right.
  - rewrite in_app_iff, Hsec by discriminate. cbn [In]. split.
    + intros [[E|[E|[]]]|Hx]; try discriminate E. now left.
    + intros [Hx|[]]. now right.
  - rewrite !in_app_iff, !Hsec by discriminate. cbn [In]. split.
    + intros [[[E|[E|[]]]|Hx]|Hx]; try discriminate E; auto.
    + intros [Hx|Hx]; auto.
Qed.

(** X8. Of the entries of the desktop, [show_status] lists exactly the
    ones it is asked for: with [include_hidden] every entry has its line,
    without it an entry has its line if and only if its name does not start
    with a dot. *)
Theorem show_status_lists_what_is_shown (include_hidden : bool) (w : W)
  (items : list string) (item : string) :
  os_path_exists (desktop_path self) w = true ->
  os_listdir (desktop_path self) w = inr items ->
  In item items ->
  let scan := show_status_scan self include_hidden items w in
  let lines := status_lines (fst scan) (snd scan) in
  fst (show_status self include_hidden w) = Text (Py.join_lines lines)
  /\ (In ("  - " ++ item) lines
      <-> include_hidden = true \/ Py.startswith item "." = false).
Proof.
  intros Hfound Hlist Hin scan lines. split.
  - unfold show_status, report, show_status_try, bind, read, read_or_raise, ret.
    cbv beta iota. rewrite Hfound. cbv beta iota. cbn [negb].
    rewrite Hlist. cbv beta iota. fold scan. unfold lines.
    now destruct scan.
  - unfold lines. rewrite in_status_lines. unfold scan, show_status_scan.
    rewrite (show_status_scan_partition self include_hidden items [] [] w).
    cbn [List.app fst snd]. rewrite !filter_In.
    destruct (os_path_isdir (OsPath.join (desktop_path self) item) w);
      cbn [negb]; rewrite orb_true_iff, negb_true_iff; intuition congruence.
Qed.

End MoreToolProperties.

(** ** The command-line interface *)

Section MainProperties.

Context {W : Type} `{OS W}.

Lemma show_status_frame (self : DesktopOrganizer) (include_hidden : bool)
  (w : W) :
  snd (show_status self include_hidden w) = w.
Proof.
  unfold show_status, report, show_status_try, bind, read, read_or_raise, ret.
  destruct (os_path_exists _ w); cbn [negb]; [|reflexivity].
  destruct (os_listdir _ w); [reflexivity|].
  now destruct (show_status_scan _ _ _ _).
Qed.

Lemma dry_run_frame (self : DesktopOrganizer) (w : W) :
  snd (organize self true w) = w.
Proof.
  unfold organize, report, organize_try, bind, read_or_raise, read, ret.
  destruct (os_listdir _ w) as [e|items]; [reflexivity|].
  destruct (list_files self items w) as [|f files]; [reflexivity|].
  destruct (analyze_files_total (f :: files) w) as [categories Ea].
  now rewrite Ea.
Qed.

(** X9. [main] moves nothing unless it is told to twice: the world it
    leaves is the one [organize] leaves when the organizer could be made
    and both answers read are "y" or "Y", and in every other case (an
    answer that is anything else, no answer to read, no organizer) it is
    the world [main] found. In the first case what it prints is the status,
    the preview and the summary of that same world, in this order. *)
Theorem main_moves_nothing_without_two_yes
  (organizer : exception + DesktopOrganizer) (w : W) (c : console) :
  fst (main organizer (w, c))
  = match organizer, stdin c with
    | inr self, a1 :: a2 :: _ =>
        if String.eqb (Py.lower a1) "y" && String.eqb (Py.lower a2) "y"
        then snd (organize self false w)
        else w
    | _, _ => w
    end
  /\ forall self a1 a2 rest,
      organizer = inr self ->
      stdin c = a1 :: a2 :: rest ->
      Py.lower a1 = "y" -> Py.lower a2 = "y" ->
      snd (main organizer (w, c))
      = {| stdin := rest;
           stdout :=
             List.app (stdout c)
               [Printed (Text (Py.LF ++ "Current Desktop Status:"));
                Printed (Text rule);
                Printed (fst (show_status self false w));
                Prompted
                  (Py.LF ++ "Would you like to organize your desktop? (y/n): ");
                Printed (Text (Py.LF ++ "Here's what I plan to do:"));
                Printed (Text rule);
                Printed (fst (organize self true w));
                Prompted (Py.LF ++ "Proceed with organization? (y/n): ");
                Printed (Text (Py.LF ++ "Organizing desktop..."));
                Printed (Text rule);
                Printed (fst (organize self false w))] |}.
Proof.
  destruct organizer as [e|self].
  - split; [reflexivity|]. intros self a1 a2 rest [=].
  - pose proof (show_status_frame self false w) as Hs.
    pose proof (dry_run_frame self w) as Hd.
    unfold main, main_try, bind, read_or_raise, print, input, call.
    cbn [fst snd stdin stdout].
    destruct (show_status self false w) as [r1 w1] eqn:Es.
    cbn [snd] in Hs. subst w1. cbn [fst snd stdin stdout].
    destruct (stdin c) as [|a1 [|a2 rest]].
    + split; [reflexivity|]. intros ? ? ? ? _ [=].
    + split; [|intros ? ? ? ? _ [=]].
      destruct (String.eqb (Py.lower a1) "y"); [|reflexivity].
      cbn [fst snd stdin stdout].
      destruct (organize self true w) as [r2 w2]. cbn [snd] in Hd. subst w2.
      reflexivity.
    + destruct (String.eqb_spec (Py.lower a1) "y") as [E1|N1].
      * cbn [fst snd stdin stdout andb].
        destruct (organize self true w) as [r2 w2] eqn:Ed.
        cbn [snd] in Hd. subst w2. cbn [fst snd stdin stdout].
        destruct (String.eqb_spec (Py.lower a2) "y") as [E2|N2].
        -- cbn [fst snd stdin stdout].
           destruct (organize self false w) as [r3 w3] eqn:Eo.
           split; [reflexivity|].
           intros ? ? ? ? [= <-] [= <- <- <-] _ _.
           rewrite Es, Ed, Eo.
           cbn [fst snd stdin stdout]. rewrite <- !app_assoc. reflexivity.
        -- split; [reflexivity|]. intros ? ? ? ? _ [= <- <- <-] _ E.
           contradiction.
      * split; [reflexivity|]. intros ? ? ? ? _ [= <- <- <-] E. contradiction.
Qed.

End MainProperties.

(** ** [organize] on the POSIX file system: what it leaves alone *)

Lemma in_plan_steps (categories : plan) (c f : string) :
  In (c, f) (plan_steps categories) <-> filed categories c f.
Proof.
  unfold plan_steps, filed. rewrite in_flat_map. split.
  - intros ([c0 fs] & Hin & Hf). apply in_map_iff in Hf as (g & [= <- <-] & Hg).
    now exists fs.
  - intros (fs & Hin & Hf). exists (c, fs). split; [assumption|].
    now apply in_map.
Qed.

Section MorePosixProperties.

Variable self : DesktopOrganizer.

Let D : list string := Posix.components (desktop_path self).

(** One step leaves the entries of the desktop other than the file and
    the category folder as they are. *)
Lemma posix_move_file_others (c f : string) (m : plan) (s : list string)
  (w w' : Posix.world) (es : Posix.entries)
  (res : exception + plan * list string) :
  Posix.valid_name c = true -> Posix.valid_name f = true ->
  Posix.lookup D (Posix.root w) = Some (Posix.Dir es) ->
  move_file self c f (m, s) w = (res, w') ->
  exists es',
    Posix.lookup D (Posix.root w') = Some (Posix.Dir es')
    /\ forall n, n <> c -> n <> f ->
                 Posix.find_entry n es' = Posix.find_entry n es.
Proof.
  intros Hc Hf Hd Hstep.
  pose proof (posix_exists_top self f w es Hf Hd) as Hex.
  destruct (Posix.find_entry f es) as [n|] eqn:Ef.
  2:{ rewrite (move_file_not_found (H := Posix.posix) self c f m s w Hex)
        in Hstep.
      injection Hstep as <- <-. exists es. auto. }
  destruct (Posix.makedirs (OsPath.join (desktop_path self) c) w)
    as [r1 w1] eqn:Em.
  destruct (posix_makedirs self c w w1 es r1 Hc Hd Em) as [_ Hmk].
  assert (Hes1 :
    (exists e, r1 = inl e /\ Posix.root w1 = Posix.root w)
    \/ (r1 = inr tt
        /\ exists es1 ces1,
            Posix.lookup D (Posix.root w1) = Some (Posix.Dir es1)
            /\ (forall k, k <> c ->
                          Posix.find_entry k es1 = Posix.find_entry k es)
            /\ Posix.find_entry f es1 = Some n
            /\ Posix.find_entry c es1 = Some (Posix.Dir ces1))).
  { destruct (Posix.find_entry c es) as [[d|ces]|] eqn:Ec.
    - destruct Hmk as [[e ->] Hr]. left. eauto.
    - destruct Hmk as [-> Hr]. right. split; [reflexivity|].
      exists es, ces. rewrite Hr. auto.
    - destruct Hmk as [-> Hl]. right. split; [reflexivity|].
      exists (List.app es [(c, Posix.Dir [])]), [].
      split; [assumption|]. split.
      + intros k Hk. rewrite find_app_last.
        destruct (Posix.find_entry k es); [reflexivity|].
        destruct (String.eqb_spec c k); [congruence|reflexivity].
      + rewrite !find_app_last, Ef, Ec, String.eqb_refl. auto. }
  destruct Hes1 as [(e & -> & Hr)|(-> & es1 & ces1 & Hd1 & Hk1 & Ef1 & Ec1)].
  { rewrite (move_file_makedirs_raises (H := Posix.posix) self c f (m, s)
               w w1 e Hex Em) in Hstep.
    injection Hstep as <- <-. exists es. rewrite Hr. auto. }
  destruct (posix_destination self c f w1 Hf) as (x & Hdest & Hx & _).
  destruct (Posix.shutil_move (OsPath.join (desktop_path self) f)
              (destination self c f w1) w1) as [r2 w2] eqn:Emv.
  pose proof Emv as Emv'. rewrite Hdest in Emv'.
  destruct (posix_shutil_move self f c x w1 w2 es1 ces1 n r2
              Hf Hc Hx Hd1 Ef1 Ec1 Emv')
    as [_ [[[e ->] Hr]|(-> & Hfc & ces' & Hd2 & _)]].
  - rewrite (move_file_move_raises (H := Posix.posix) self c f m s w w1 w2 e
               Hex Em Emv) in Hstep.
    injection Hstep as <- <-. exists es1. rewrite Hr. auto.
  - rewrite (move_file_moved (H := Posix.posix) self c f m s w w1 w2
               Hex Em Emv) in Hstep.
    injection Hstep as <- <-.
    exists (Posix.replace_entry c (Posix.Dir ces') (Posix.remove_entry f es1)).
    split; [assumption|]. intros k Hkc Hkf.
    rewrite find_replace_other, find_remove_other by congruence. auto.
Qed.

(** A run of the loops, however it ends. *)
Lemma posix_run_frame (steps : list (string * string))
  (st : plan * list string) (w w' : Posix.world) (es : Posix.entries)
  (res : exception + plan * list string) :
  valid_steps steps ->
  Posix.lookup D (Posix.root w) = Some (Posix.Dir es) ->
  move_steps self steps st w = (res, w') ->
  exists es',
    Posix.lookup D (Posix.root w') = Some (Posix.Dir es')
    /\ (forall n d,
          Posix.find_entry n es' = Some (Posix.File d) ->
          Posix.find_entry n es = Some (Posix.File d))
    /\ (forall n, In n (map fst es') ->
                  In n (map fst es) \/ In n (map fst steps))
    /\ (forall n,
          ~ In n (map fst steps) -> ~ In n (map snd steps) ->
          Posix.find_entry n es' = Posix.find_entry n es).
Proof.
  revert st w es; induction steps as [|[c f] steps IH];
    intros [m s] w es Hv Hd.
  - intros [= <- <-]. exists es. auto.
  - rewrite move_steps_cons. unfold bind.
    destruct (move_file self c f (m, s) w) as [r1 w1] eqn:E.
    inversion Hv as [|? ? [Hc Hf] Hv']; subst. cbn [fst snd] in Hc, Hf.
    destruct (posix_move_file self c f m s w w1 es r1 Hc Hf Hd E)
      as (es1 & Hd1 & (A1 & B1 & _) & _).
    destruct (posix_move_file_others c f m s w w1 es r1 Hc Hf Hd E)
      as (es1' & Hd1' & K1).
    fold D in Hd1. rewrite Hd1 in Hd1'. injection Hd1' as <-.
    cbn [map fst snd In].
    destruct r1 as [e|st1].
    + intros [= <- <-]. exists es1. split; [assumption|].
      split; [assumption|]. split.
      * intros n Hn. destruct (A1 n Hn) as [ | -> ]; auto.
      * intros n Hn1 Hn2. apply K1; intros ->; tauto.
    + intros Hrun.
      destruct (IH st1 w1 es1 Hv' Hd1 Hrun) as (es' & Hd' & B & A & K).
      exists es'. split; [assumption|]. split; [auto|]. split.
      * intros n Hn. destruct (A n Hn) as [Hn1|Hn1]; [|auto].
        destruct (A1 n Hn1) as [ | -> ]; auto.
      * intros n Hn1 Hn2. rewrite K by tauto. apply K1; intros ->; tauto.
Qed.

(** The whole of [organize], in either mode and however it ends. *)
Lemma posix_organize_frame (dry_run : bool) (w : Posix.world)
  (items : list string) (categories : plan) :
  os_listdir (desktop_path self) w = inr items ->
  analyze_files (list_files self items w) w = (inr categories, w) ->
  valid_steps (plan_steps categories) ->
  exists es es',
    Posix.lookup D (Posix.root w) = Some (Posix.Dir es)
    /\ Posix.lookup D (Posix.root (snd (organize self dry_run w)))
       = Some (Posix.Dir es')
    /\ (forall n d,
          Posix.find_entry n es' = Some (Posix.File d) ->
          Posix.find_entry n es = Some (Posix.File d))
    /\ (forall n, In n (map fst es') ->
                  In n (map fst es) \/ In n (map fst categories))
    /\ (forall n,
          ~ In n (map fst (plan_steps categories)) ->
          ~ In n (map snd (plan_steps categories)) ->
          Posix.find_entry n es' = Posix.find_entry n es).
Proof.
  intros Hl Ha Hplan.
  assert (Hes : exists es, Posix.lookup D (Posix.root w) = Some (Posix.Dir es)).
  { change (Posix.listdir (desktop_path self) w = inr items) in Hl.
    unfold Posix.listdir in Hl. fold D in Hl.
    destruct (Posix.lookup D (Posix.root w)) as [[d|es]|]; try discriminate.
    now exists es. }
  destruct Hes as (es & Hd). exists es.
  assert (Hsame : exists es',
            Posix.lookup D (Posix.root w) = Some (Posix.Dir es')
            /\ (forall n d,
                  Posix.find_entry n es' = Some (Posix.File d) ->
                  Posix.find_entry n es = Some (Posix.File d))
            /\ (forall n, In n (map fst es') ->
                          In n (map fst es) \/ In n (map fst categories))
            /\ (forall n,
                  ~ In n (map fst (plan_steps categories)) ->
                  ~ In n (map snd (plan_steps categories)) ->
                  Posix.find_entry n es' = Posix.find_entry n es))
    by (exists es; auto).
  unfold organize, report, organize_try, bind, read_or_raise, read, ret.
  rewrite Hl.
  destruct (list_files self items w) as [|f files];
    [destruct Hsame as (es' & ?); exists es'; now split|].
  rewrite Ha.
  destruct dry_run; [destruct Hsame as (es' & ?); exists es'; now split|].
  destruct (move_all self categories w) as [r w1] eqn:Hrun.
  pose proof Hrun as Hsteps. unfold move_all in Hsteps.
  rewrite move_all_steps in Hsteps.
  destruct (posix_run_frame _ _ _ _ es _ Hplan Hd Hsteps)
    as (es' & Hd' & B & A & K).
  exists es'.
  split; [assumption|]. split.
  - destruct r as [e|[? ?]]; exact Hd'.
  - split; [assumption|]. split; [|assumption].
    intros n Hn. destruct (A n Hn) as [ | Hc]; [now left|]. right.
    apply in_map_iff in Hc as ([c g] & <- & Hin).
    apply in_plan_steps in Hin as (fs & Hin & _).
    now apply (in_map fst) in Hin.
Qed.

End MorePosixProperties.

Section PosixGuarantees.

Variable self : DesktopOrganizer.

Let D : list string := Posix.components (desktop_path self).

Lemma lookup_desktop_entry (n : string) (r : Posix.node) (es : Posix.entries) :
  Posix.lookup D r = Some (Posix.Dir es) ->
  Posix.lookup (List.app D [n]) r = Posix.find_entry n es.
Proof.
  intros Hd. rewrite lookup_app, Hd. cbn [Posix.lookup].
  now destruct (Posix.find_entry n es).
Qed.

(** X10. Whatever the plan and however the run ends, [organize] leaves an
    entry of the desktop that the plan names neither as a file nor as a
    category exactly as it was, with all that is below it. *)
Theorem organize_keeps_what_the_plan_does_not_name (dry_run : bool)
  (w : Posix.world) (items : list string) (categories : plan) (n : string) :
  os_listdir (desktop_path self) w = inr items ->
  analyze_files (list_files self items w) w = (inr categories, w) ->
  valid_steps (plan_steps categories) ->
  ~ In n (map fst (plan_steps categories)) ->
  ~ In n (map snd (plan_steps categories)) ->
  Posix.lookup (List.app (Posix.components (desktop_path self)) [n])
    (Posix.root (snd (organize self dry_run w)))
  = Posix.lookup (List.app (Posix.components (desktop_path self)) [n])
      (Posix.root w).
Proof.
  intros Hl Ha Hplan Hc Hf.
  destruct (posix_organize_frame self dry_run w items categories Hl Ha Hplan)
    as (es & es' & Hd & Hd' & _ & _ & K).
  fold D. fold D in Hd, Hd'.
  rewrite (lookup_desktop_entry n _ _ Hd), (lookup_desktop_entry n _ _ Hd').
  now apply K.
Qed.

(** X11. Whatever the plan and however the run ends, [organize] adds
    nothing but category folders to the desktop: a regular file found on
    the desktop afterwards was there before, with the same content, and a
    name listed afterwards was listed before or is a category of the
    plan. *)
Theorem organize_only_adds_folders (dry_run : bool) (w : Posix.world)
  (items : list string) (categories : plan) :
  os_listdir (desktop_path self) w = inr items ->
  analyze_files (list_files self items w) w = (inr categories, w) ->
  valid_steps (plan_steps categories) ->
  (forall n d,
     Posix.lookup (List.app (Posix.components (desktop_path self)) [n])
       (Posix.root (snd (organize self dry_run w)))
     = Some (Posix.File d) ->
     Posix.lookup (List.app (Posix.components (desktop_path self)) [n])
       (Posix.root w)
     = Some (Posix.File d))
  /\ exists items',
      os_listdir (desktop_path self) (snd (organize self dry_run w))
      = inr items'
      /\ forall n, In n items' -> In n items \/ In n (map fst categories).
Proof.
  intros Hl Ha Hplan.
  destruct (posix_organize_frame self dry_run w items categories Hl Ha Hplan)
    as (es & es' & Hd & Hd' & B & A & _).
  fold D. fold D in Hd, Hd'. split.
  - intros n d.
    rewrite (lookup_desktop_entry n _ _ Hd), (lookup_desktop_entry n _ _ Hd').
    apply B.
  - exists (map fst es'). split.
    + change (Posix.listdir (desktop_path self) (snd (organize self dry_run w))
              = inr (map fst es')).
      unfold Posix.listdir. fold D. now rewrite Hd'.
    + change (Posix.listdir (desktop_path self) w = inr items) in Hl.
      unfold Posix.listdir in Hl. fold D in Hl. rewrite Hd in Hl.
      injection Hl as <-. exact A.
Qed.

(** X12. When the chat completion raises, [organize] leaves every hidden
    entry of the desktop (a name that starts with a dot), file or folder,
    exactly as it was, in both modes and however the run ends. *)
Theorem fallback_run_keeps_hidden_entries (dry_run : bool) (w : Posix.world)
  (items : list string) (e : exception) (n : string) :
  os_listdir (desktop_path self) w = inr items ->
  Forall (fun item => Posix.valid_name item = true) items ->
  chat_completion (list_files self items w) w = inl e ->
  Py.startswith n "." = true ->
  Posix.lookup (List.app (Posix.components (desktop_path self)) [n])
    (Posix.root (snd (organize self dry_run w)))
  = Posix.lookup (List.app (Posix.components (desktop_path self)) [n])
      (Posix.root w).
Proof.
  intros Hl Hitems Hfail Hdot.
  set (files := list_files self items w) in *.
  assert (Ha : analyze_files files w = (inr (fallback_categorize files), w)).
  { destruct files as [|f fs] eqn:Ef; [reflexivity|].
    unfold analyze_files, bind, try, read_or_raise, ret. now rewrite Hfail. }
  assert (Hfiled : forall c f,
            In (c, f) (plan_steps (fallback_categorize files)) ->
            In c fallback_folders /\ In f files).
  { intros c f Hin. apply in_plan_steps in Hin as (fs & Hin & Hf). split.
    - apply (fallback_key_is_folder files). now apply (in_map fst) in Hin.
    - destruct (fallback_fold_partition files []) as (_ & _ & P);
        [constructor|constructor|].
      eapply Permutation_in; [exact P|].
      apply in_concat. exists fs. split; [|assumption].
      now apply (in_map snd) in Hin. }
  destruct (posix_organize_frame self dry_run w items
              (fallback_categorize files) Hl Ha)
    as (es & es' & Hd & Hd' & _ & _ & K).
  { apply Forall_forall. intros [c f] Hin.
    destruct (Hfiled c f Hin) as [Hc Hf]. cbn [fst snd]. split.
    - unfold fallback_folders in Hc. cbn [In] in Hc.
      repeat (destruct Hc as [<-|Hc]; [reflexivity|]). destruct Hc.
    - apply filter_In in Hf as [Hf _].
      now apply (proj1 (Forall_forall _ _) Hitems). }
  fold D. fold D in Hd, Hd'.
  rewrite (lookup_desktop_entry n _ _ Hd), (lookup_desktop_entry n _ _ Hd').
  apply K.
  - intros Hin. apply in_map_iff in Hin as ([c f] & <- & Hin).
    destruct (Hfiled c f Hin) as [Hc _]. cbn [fst] in Hdot.
    unfold fallback_folders in Hc. cbn [In] in Hc.
    repeat (destruct Hc as [<-|Hc]; [discriminate Hdot|]). destruct Hc.
  - intros Hin. apply in_map_iff in Hin as ([c f] & <- & Hin).
    destruct (Hfiled c f Hin) as [_ Hf]. cbn [snd] in Hdot.
    apply filter_In in Hf as [_ Hf]. rewrite Hdot in Hf. discriminate Hf.
Qed.


End PosixGuarantees.

(** * The properties at work *)

(** ** C1 *)

(** C1 fails on a taken name: [report.txt] goes to
    [Documents/report_20261104_120007.txt], next to the one that was
    there, and the moved mapping and the summary name it [report.txt]. *)
Lemma renamed_file_is_recorded_by_old_name :
  fst (move_all Scenario.me [("Documents", ["report.txt"])] Scenario.collision)
  = inr ([("Documents", ["report.txt"])], [])
  /\ fst (organize Scenario.me false Scenario.collision)
     = Text
         (Py.join_lines
            ["Organization Complete!"; Py.LF ++ "Documents (1 files):";
             "  - report.txt"])
  /\ Posix.root (snd (organize Scenario.me false Scenario.collision))
     = Scenario.home
         [("Documents",
           Posix.Dir
             [("report.txt", Posix.File "old");
              ("report_20261104_120007.txt", Posix.File "new")])]
  /\ ~ recorded [("Documents", ["report.txt"])] "report_20261104_120007.txt".
Proof.
  split; [vm_compute; reflexivity|]. split; [vm_compute; reflexivity|].
  split; [vm_compute; reflexivity|].
  intros (c & fs & [E|[]] & Hin). injection E as <- <-.
  destruct Hin as [E|[]]. discriminate E.
Qed.

Lemma moved_file_is_recorded_by_source_name_witness :
  os_path_exists "/Users/me/Desktop/report.txt" Scenario.collision = true
  /\ move_file Scenario.me "Documents" "report.txt" ([], []) Scenario.collision
     = (inr ([("Documents", ["report.txt"])], []),
        Scenario.file_moved "Documents" "report.txt" Scenario.collision)
  /\ destination Scenario.me "Documents" "report.txt"
       (Scenario.folder_made "Documents" Scenario.collision)
     = "/Users/me/Desktop/Documents/report_20261104_120007.txt".
Proof.
  pose proof
    (moved_file_is_recorded_by_source_name (H := Posix.posix) Scenario.me
       "Documents" "report.txt"
       [] [] Scenario.collision
       (Scenario.folder_made "Documents" Scenario.collision)
       (Scenario.file_moved "Documents" "report.txt" Scenario.collision)
       ltac:(vm_compute; reflexivity) ltac:(vm_compute; reflexivity)
       ltac:(vm_compute; reflexivity)) as H.
  cbv zeta in H. destruct H as (H1 & _ & _ & H4).
  split; [vm_compute; reflexivity|]. split; [exact H1|].
  rewrite H4; vm_compute; reflexivity.
Defined.

(** ** C2 *)



(** ** C4 and C9 *)

Example dry_run_on_two_files :
  organize Scenario.me true Scenario.two_files
  = (Text
       (Py.join_lines
          ["Preview of organization plan:"; Py.LF ++ "Images:"; "  - a.jpg";
           Py.LF ++ "Documents:"; "  - b.txt"]),
     Scenario.two_files).
Proof. vm_compute. reflexivity. Qed.

Example show_status_on_collision :
  show_status Scenario.me false Scenario.collision
  = (Text
       (Py.join_lines
          ["Desktop Status:"; Py.LF ++ "Total Items: 2"; Py.LF ++ "Folders:";
           "  - Documents"; Py.LF ++ "Files:"; "  - report.txt"]),
     Scenario.collision).
Proof. vm_compute. reflexivity. Qed.

(** ** C5 *)



(** ** C6 and C7 *)

Lemma move_error_is_skipped_witness :
  fst (shutil_move "/Users/me/Desktop/X" "/Users/me/Desktop/X/X"
         (Scenario.folder_made "X" Scenario.folder_into_itself))
  = inl (Exception "Error"
           "Cannot move a directory '/Users/me/Desktop/X' into itself '/Users/me/Desktop/X/X'.")
  /\ fst (move_all Scenario.me [("X", ["X"; "a.txt"])]
            Scenario.folder_into_itself)
     = inr ([("X", ["a.txt"])],
            ["X (Cannot move a directory '/Users/me/Desktop/X' into itself '/Users/me/Desktop/X/X'.)"]).
Proof.
  split; [vm_compute; reflexivity|].
  destruct
    (move_error_is_skipped_and_loop_continues (H := Posix.posix) Scenario.me
       [] [] "X" "X" [] ["a.txt"] [] []
       Scenario.folder_into_itself Scenario.folder_into_itself
       (Scenario.folder_made "X" Scenario.folder_into_itself)
       (Scenario.file_moved "X" "X" Scenario.folder_into_itself)
       (Exception "Error"
          "Cannot move a directory '/Users/me/Desktop/X' into itself '/Users/me/Desktop/X/X'.")
       ltac:(vm_compute; reflexivity) ltac:(vm_compute; reflexivity)
       ltac:(vm_compute; reflexivity) ltac:(vm_compute; reflexivity))
    as [_ Hgo].
  cbn [List.app] in Hgo. rewrite Hgo. vm_compute. reflexivity.
Defined.

Lemma missing_source_is_skipped_witness :
  os_path_exists "/Users/me/Desktop/ghost.txt" Scenario.ghost_file = false
  /\ fst (move_all Scenario.me [("Docs", ["ghost.txt"; "a.txt"])]
            Scenario.ghost_file)
     = inr ([("Docs", ["a.txt"])], ["ghost.txt (not found)"]).
Proof.
  split; [vm_compute; reflexivity|].
  destruct
    (missing_source_is_skipped_and_loop_continues (H := Posix.posix)
       Scenario.me [] [] "Docs" "ghost.txt" [] ["a.txt"] [] []
       Scenario.ghost_file Scenario.ghost_file
       ltac:(vm_compute; reflexivity) ltac:(vm_compute; reflexivity))
    as [_ Hgo].
  cbn [List.app] in Hgo. rewrite Hgo. vm_compute. reflexivity.
Defined.

(** ** C8 *)


(** ** C10 *)

(** C10 fails when a category bears the name of the file: [Notes] is
    moved to [Misc]; the folder made for the category [Notes] is then
    what the second [Notes] of the plan finds, and moves to [Other].
    Nothing is skipped. *)
Lemma category_named_as_file_moves_twice :
  fst (move_all Scenario.me
         [("Misc", ["Notes"]); ("Notes", ["todo.txt"]); ("Other", ["Notes"])]
         Scenario.category_named_as_file)
  = inr ([("Misc", ["Notes"]); ("Notes", ["todo.txt"]); ("Other", ["Notes"])],
         [])
  /\ Posix.root
       (snd (organize Scenario.me false Scenario.category_named_as_file))
     = Scenario.home
         [("Misc", Posix.Dir [("Notes", Posix.File "N")]);
          ("Other",
           Posix.Dir [("Notes", Posix.Dir [("todo.txt", Posix.File "T")])])].
Proof. split; vm_compute; reflexivity. Qed.

(** Why the names between the two occurrences are to be single path
    components: the folders of the category [Notes/Personal] put [Notes]
    back on the desktop as well. *)
Example category_below_the_file_moves_twice :
  organize Scenario.me false Scenario.category_below_the_file
  = (Text
       (Py.join_lines
          ["Organization Complete!"; Py.LF ++ "Misc (1 files):"; "  - Notes";
           Py.LF ++ "Notes/Personal (1 files):"; "  - todo.txt";
           Py.LF ++ "Other (1 files):"; "  - Notes"]),
     snd (organize Scenario.me false Scenario.category_below_the_file))
  /\ Posix.root
       (snd (organize Scenario.me false Scenario.category_below_the_file))
     = Scenario.home
         [("Misc", Posix.Dir [("Notes", Posix.File "N")]);
          ("Other",
           Posix.Dir
             [("Notes",
               Posix.Dir
                 [("Personal", Posix.Dir [("todo.txt", Posix.File "T")])])])].
Proof. split; vm_compute; reflexivity. Qed.

Lemma repeated_file_is_skipped_witness :
  move_file Scenario.me "Docs" "a.txt" ([], []) Scenario.filed_twice
  = (inr ([("Docs", ["a.txt"])], []),
     Scenario.file_moved "Docs" "a.txt" Scenario.filed_twice)
  /\ fst (move_all Scenario.me [("Docs", ["a.txt"; "b.txt"]); ("Misc", ["a.txt"])]
            Scenario.filed_twice)
     = inr ([("Docs", ["a.txt"; "b.txt"])], ["a.txt (not found)"]).
Proof.
  split; [vm_compute; reflexivity|].
  destruct
    (repeated_file_is_skipped_as_not_found Scenario.me
       [("Docs", ["a.txt"; "b.txt"]); ("Misc", ["a.txt"])]
       [] [("Docs", "b.txt")] [] "Docs" "Misc" "a.txt"
       Scenario.filed_twice Scenario.filed_twice
       (Scenario.file_moved "Docs" "a.txt" Scenario.filed_twice)
       (Scenario.file_moved "Docs" "b.txt"
          (Scenario.file_moved "Docs" "a.txt" Scenario.filed_twice))
       [] [("Docs", ["a.txt"; "b.txt"])] [] []
       ltac:(vm_compute; reflexivity) ltac:(vm_compute; reflexivity)
       ltac:(vm_compute; reflexivity)
       ltac:(repeat constructor)
       ltac:(cbn; intros [E|[]]; discriminate E)
       ltac:(vm_compute; reflexivity) ltac:(vm_compute; reflexivity)
       ltac:(vm_compute; reflexivity))
    as (_ & Hgo & _).
  rewrite Hgo. vm_compute. reflexivity.
Defined.

(** ** C4 and C9, from their theorems *)

Lemma organize_dry_run_witness :
  os_listdir "/Users/me/Desktop" Scenario.two_files
  = inr ["a.jpg"; "b.txt"; ".hidden"]
  /\ snd (organize Scenario.me true Scenario.two_files) = Scenario.two_files
  /\ exists categories,
      analyze_files ["a.jpg"; "b.txt"] Scenario.two_files
      = (inr categories, Scenario.two_files)
      /\ fst (organize Scenario.me true Scenario.two_files)
         = Text (Py.join_lines (preview_lines categories))
      /\ plan_of_preview (preview_lines categories) = Some categories.
Proof.
  split; [vm_compute; reflexivity|].
  destruct (organize_dry_run_previews_the_plan (H := Posix.posix) Scenario.me
              Scenario.two_files) as [Hframe Hpreview].
  split; [exact Hframe|].
  exact (Hpreview ["a.jpg"; "b.txt"; ".hidden"]
           ltac:(vm_compute; reflexivity) ltac:(vm_compute; discriminate)).
Defined.

Lemma show_status_witness :
  os_listdir "/Users/me/Desktop" Scenario.two_files
  = inr ["a.jpg"; "b.txt"; ".hidden"]
  /\ snd (show_status Scenario.me true Scenario.collision) = Scenario.collision
  /\ fst (show_status Scenario.me true Scenario.two_files)
     = Text
         (Py.join_lines
            ["Desktop Status:"; Py.LF ++ "Total Items: 3"; Py.LF ++ "Files:";
             "  - .hidden"; "  - a.jpg"; "  - b.txt"]).
Proof.
  split; [vm_compute; reflexivity|].
  split;
    [exact (proj1 (show_status_lists_folders_then_files (H := Posix.posix)
                     Scenario.me true Scenario.collision))|].
  destruct (proj2 (show_status_lists_folders_then_files (H := Posix.posix)
                     Scenario.me true Scenario.two_files)
              ["a.jpg"; "b.txt"; ".hidden"]
              ltac:(vm_compute; reflexivity) ltac:(vm_compute; reflexivity))
    as [Htext _].
  etransitivity; [exact Htext|]. vm_compute. reflexivity.
Defined.

(** ** The further properties at work *)

Lemma fallback_plan_categories_witness :
  In "Other" (map fst (fallback_categorize ["a.jpg"; "notes"]))
  /\ In "Other" fallback_folders.
Proof.
  assert (Hin : In "Other" (map fst (fallback_categorize ["a.jpg"; "notes"])))
    by (right; left; reflexivity).
  split; [exact Hin|].
  exact (fallback_plan_categories ["a.jpg"; "notes"] "Other" Hin).
Defined.

Lemma analyze_files_falls_back_witness :
  chat_completion ["a.jpg"; "b.txt"] Scenario.two_files
  = inl (Exception "ConnectionError" "Connection refused")
  /\ exists categories,
      analyze_files ["a.jpg"; "b.txt"] Scenario.two_files
      = (inr categories, Scenario.two_files)
      /\ Permutation (List.concat (map snd categories)) ["a.jpg"; "b.txt"].
Proof.
  split; [reflexivity|].
  destruct (analyze_files_falls_back_to_a_partition (H := Posix.posix)
              ["a.jpg"; "b.txt"] Scenario.two_files
              (Exception "ConnectionError" "Connection refused") eq_refl)
    as (categories & Ha & _ & _ & P).
  now exists categories.
Defined.

Lemma every_planned_file_is_moved_or_skipped_witness :
  move_all Scenario.me [("Docs", ["ghost.txt"; "a.txt"])] Scenario.ghost_file
  = (inr ([("Docs", ["a.txt"])], ["ghost.txt (not found)"]),
     Scenario.file_moved "Docs" "a.txt" Scenario.ghost_file)
  /\ List.length (List.concat (map snd [("Docs", ["a.txt"])]))
     + List.length ["ghost.txt (not found)"]
     = List.length (plan_steps [("Docs", ["ghost.txt"; "a.txt"])]).
Proof.
  assert (Hrun :
    move_all Scenario.me [("Docs", ["ghost.txt"; "a.txt"])] Scenario.ghost_file
    = (inr ([("Docs", ["a.txt"])], ["ghost.txt (not found)"]),
       Scenario.file_moved "Docs" "a.txt" Scenario.ghost_file))
    by (vm_compute; reflexivity).
  split; [exact Hrun|].
  exact (every_planned_file_is_moved_or_skipped (H := Posix.posix) Scenario.me
           _ _ _ _ _ Hrun).
Defined.

Lemma records_come_from_the_plan_witness :
  move_all Scenario.me [("Docs", ["ghost.txt"; "a.txt"])] Scenario.ghost_file
  = (inr ([("Docs", ["a.txt"])], ["ghost.txt (not found)"]),
     Scenario.file_moved "Docs" "a.txt" Scenario.ghost_file)
  /\ In ("Docs", "a.txt") (plan_steps [("Docs", ["ghost.txt"; "a.txt"])]).
Proof.
  assert (Hrun :
    move_all Scenario.me [("Docs", ["ghost.txt"; "a.txt"])] Scenario.ghost_file
    = (inr ([("Docs", ["a.txt"])], ["ghost.txt (not found)"]),
       Scenario.file_moved "Docs" "a.txt" Scenario.ghost_file))
    by (vm_compute; reflexivity).
  split; [exact Hrun|].
  apply (proj1 (records_come_from_the_plan (H := Posix.posix) Scenario.me
                  _ _ _ _ _ Hrun)).
  exists ["a.txt"]. split; now left.
Defined.

Lemma organize_without_files_witness :
  os_listdir "/Users/me/Desktop" Scenario.nothing_to_organize
  = inr [".hidden"; "Folder"]
  /\ organize Scenario.me false Scenario.nothing_to_organize
     = (Text "No files to organize on the desktop.",
        Scenario.nothing_to_organize).
Proof.
  split; [reflexivity|].
  apply (organize_without_files (H := Posix.posix) Scenario.me false
           Scenario.nothing_to_organize [".hidden"; "Folder"] eq_refl).
  intros item [<-|[<-|[]]]; [left|right]; reflexivity.
Defined.

Lemma show_status_lists_what_is_shown_witness :
  os_listdir "/Users/me/Desktop" Scenario.two_files
  = inr ["a.jpg"; "b.txt"; ".hidden"]
  /\ ~ In "  - .hidden"
       (status_lines
          (fst (show_status_scan Scenario.me false
                  ["a.jpg"; "b.txt"; ".hidden"] Scenario.two_files))
          (snd (show_status_scan Scenario.me false
                  ["a.jpg"; "b.txt"; ".hidden"] Scenario.two_files))).
Proof.
  split; [reflexivity|].
  destruct (show_status_lists_what_is_shown (H := Posix.posix) Scenario.me
              false Scenario.two_files ["a.jpg"; "b.txt"; ".hidden"] ".hidden"
              eq_refl eq_refl ltac:(right; right; left; reflexivity))
    as [_ Hiff].
  intros Hin. apply Hiff in Hin as [E|E]; discriminate E.
Defined.

Lemma main_witness :
  fst (main (inr Scenario.me)
         (Scenario.two_files, Scenario.typed ["Y"; "n"]))
  = Scenario.two_files
  /\ fst (main (inr Scenario.me)
            (Scenario.two_files, Scenario.typed ["y"; "Y"]))
     = snd (organize Scenario.me false Scenario.two_files)
  /\ fst (main (inr Scenario.me) (Scenario.two_files, Scenario.typed ["y"]))
     = Scenario.two_files.
Proof.
  split; [|split].
  - exact (proj1 (main_moves_nothing_without_two_yes (H := Posix.posix)
                    (inr Scenario.me) Scenario.two_files
                    (Scenario.typed ["Y"; "n"]))).
  - exact (proj1 (main_moves_nothing_without_two_yes (H := Posix.posix)
                    (inr Scenario.me) Scenario.two_files
                    (Scenario.typed ["y"; "Y"]))).
  - exact (proj1 (main_moves_nothing_without_two_yes (H := Posix.posix)
                    (inr Scenario.me) Scenario.two_files
                    (Scenario.typed ["y"]))).
Defined.

Lemma organize_keeps_what_the_plan_does_not_name_witness :
  analyze_files ["a.jpg"; "b.txt"] Scenario.two_files
  = (inr [("Images", ["a.jpg"]); ("Documents", ["b.txt"])], Scenario.two_files)
  /\ Posix.lookup ["Users"; "me"; "Desktop"; ".hidden"]
       (Posix.root (snd (organize Scenario.me false Scenario.two_files)))
     = Some (Posix.File "H").
Proof.
  split; [reflexivity|].
  etransitivity;
    [apply (organize_keeps_what_the_plan_does_not_name Scenario.me false
              Scenario.two_files ["a.jpg"; "b.txt"; ".hidden"]
              [("Images", ["a.jpg"]); ("Documents", ["b.txt"])] ".hidden"
              eq_refl eq_refl)|reflexivity].
  - repeat constructor.
  - cbn. intros [E|[E|[]]]; discriminate E.
  - cbn. intros [E|[E|[]]]; discriminate E.
Defined.

Lemma organize_only_adds_folders_witness :
  os_listdir "/Users/me/Desktop" Scenario.two_files
  = inr ["a.jpg"; "b.txt"; ".hidden"]
  /\ exists items',
      os_listdir "/Users/me/Desktop"
        (snd (organize Scenario.me false Scenario.two_files))
      = inr items'
      /\ forall n,
          In n items' ->
          In n ["a.jpg"; "b.txt"; ".hidden"] \/ In n ["Images"; "Documents"].
Proof.
  split; [reflexivity|].
  exact (proj2 (organize_only_adds_folders Scenario.me false
                  Scenario.two_files ["a.jpg"; "b.txt"; ".hidden"]
                  [("Images", ["a.jpg"]); ("Documents", ["b.txt"])]
                  eq_refl eq_refl ltac:(repeat constructor))).
Defined.

Lemma fallback_run_keeps_hidden_entries_witness :
  Py.startswith ".hidden" "." = true
  /\ Posix.lookup ["Users"; "me"; "Desktop"; ".hidden"]
       (Posix.root (snd (organize Scenario.me false Scenario.two_files)))
     = Some (Posix.File "H").
Proof.
  split; [reflexivity|].
  etransitivity;
    [apply (fallback_run_keeps_hidden_entries Scenario.me false
              Scenario.two_files ["a.jpg"; "b.txt"; ".hidden"]
              (Exception "ConnectionError" "Connection refused") ".hidden"
              eq_refl ltac:(repeat constructor) eq_refl eq_refl)
    |reflexivity].
Defined.

